(** * Resume analyzer: a shallow embedding of the TypeScript sources

    The development follows the layout of the repository:
    - [Js]             the few JavaScript built-ins the code relies on
                       (strings, [Array.prototype.push]/[forEach]/[filter],
                       thrown values);
    - [Json]           JSON values and [JSON.parse];
    - [Types]          [src/types.ts];
    - [GeminiService]  [src/services/geminiService.ts];
    - [FileUpload]     [src/components/FileUpload.tsx];
    - [Dashboard]      the derivation rules of
                       [src/components/AnalysisDashboard.tsx];
    - [App]            the state held by [App.tsx], its handlers, and the
                       running application: attempts whose reader and call
                       end later, and the events of the page;
    - [Vocabulary]     the notions the specification speaks of;
    - [Samples]        inputs for the examples.

    Definitions come first, the statements about them afterwards. *)

From Stdlib Require Import String Ascii ZArith NArith QArith List Bool Lia Lqa.
From stdpp Require Import base list strings gmap pretty.
Import ListNotations.

Local Open Scope string_scope.
Local Open Scope list_scope.

Set Warnings "-register-all".

(* ===================================================================== *)
(** ** JavaScript built-ins used by the sources *)
(* ===================================================================== *)

Module Js.

(** [String.prototype.toLowerCase].  Strings are byte strings (UTF-8);
    only the letters [A]..[Z] are mapped, which is all that matters to
    a search for a lower-case ASCII word. *)
Definition toLowerCase_char (c : ascii) : ascii :=
  let n := nat_of_ascii c in
  if (65 <=? n)%nat && (n <=? 90)%nat then ascii_of_nat (n + 32) else c.

Fixpoint toLowerCase (s : string) : string :=
  match s with
  | EmptyString => EmptyString
  | String c s' => String (toLowerCase_char c) (toLowerCase s')
  end.

(** [String.prototype.includes]: [needle] occurs somewhere in [s]. *)
Fixpoint includes (s needle : string) : bool :=
  String.prefix needle s
  || match s with
     | EmptyString => false
     | String _ s' => includes s' needle
     end.

(** Strict equality [===] on two strings. *)
Definition str_eq (a b : string) : bool := String.eqb a b.

(** [Array.prototype.push]: the element goes to the end. *)
Definition push {A} (items : list A) (x : A) : list A := items ++ [x].

(** [xs.forEach(x => items.push(f x))], started from the array [items]. *)
Definition forEach_push {A B} (f : A -> B) (xs : list A) (items : list B)
  : list B :=
  fold_left (fun acc x => push acc (f x)) xs items.

(** [Array.prototype.filter]: walks the array from index 0 and pushes
    every element that passes the test to a fresh array. *)
Definition filter {A} (p : A -> bool) (xs : list A) : list A :=
  fold_left (fun acc x => if p x then push acc x else acc) xs [].

(** A thrown value: an instance of [Error] (with the name of its
    constructor and its message) or anything else. *)
Inductive thrown : Type :=
| ErrorObject (name message : string)
| OtherValue (shown : string).

(** [new Error(message)] *)
Definition Error (message : string) : thrown := ErrorObject "Error" message.

(** [err instanceof Error] *)
Definition instanceof_Error (err : thrown) : bool :=
  match err with ErrorObject _ _ => true | OtherValue _ => false end.

(** [err.message] of an instance of [Error]. *)
Definition message (err : thrown) : string :=
  match err with ErrorObject _ m => m | OtherValue _ => EmptyString end.

(** [a || b] on strings: the empty string is falsy. *)
Definition or_else (a b : string) : string :=
  match a with EmptyString => b | _ => a end.

End Js.

(* ===================================================================== *)
(** ** JSON values and [JSON.parse] *)
(* ===================================================================== *)

Module Json.

(** A JSON value.  A number keeps its literal: the conversion to a
    double plays no part in what follows.  An object keeps its members
    in insertion order. *)
Inductive json : Type :=
| JNull
| JBool (b : bool)
| JNumber (literal : string)
| JString (s : string)
| JArray (elems : list json)
| JObject (members : list (string * json)).

(** [obj[k]] *)
Fixpoint get (k : string) (m : list (string * json)) : option json :=
  match m with
  | [] => None
  | (k', v) :: m' => if String.eqb k k' then Some v else get k m'
  end.

(** [obj[k] = v]: a repeated key keeps its place and takes the new value. *)
Fixpoint set (k : string) (v : json) (m : list (string * json))
  : list (string * json) :=
  match m with
  | [] => [(k, v)]
  | (k', v') :: m' =>
      if String.eqb k k' then (k, v) :: m' else (k', v') :: set k v m'
  end.

(** [k in obj] for a parsed value. *)
Definition has_key (v : json) (k : string) : bool :=
  match v with
  | JObject m => match get k m with Some _ => true | None => false end
  | _ => false
  end.

(** *** Lexical level *)

Definition is_ws (c : ascii) : bool :=
  let n := nat_of_ascii c in
  (n =? 32)%nat || (n =? 9)%nat || (n =? 10)%nat || (n =? 13)%nat.

Definition is_digit (c : ascii) : bool :=
  let n := nat_of_ascii c in (48 <=? n)%nat && (n <=? 57)%nat.

Fixpoint skip_ws (cs : list ascii) : list ascii :=
  match cs with
  | c :: cs' => if is_ws c then skip_ws cs' else cs
  | [] => []
  end.

Fixpoint span_digits (cs : list ascii) : list ascii * list ascii :=
  match cs with
  | c :: cs' =>
      if is_digit c
      then let '(ds, r) := span_digits cs' in (c :: ds, r)
      else ([], cs)
  | [] => ([], [])
  end.

Fixpoint strip_prefix (p cs : list ascii) : option (list ascii) :=
  match p, cs with
  | [], _ => Some cs
  | a :: p', c :: cs' =>
      if Ascii.eqb a c then strip_prefix p' cs' else None
  | _ :: _, [] => None
  end.

Definition hex_val (c : ascii) : option nat :=
  let n := nat_of_ascii c in
  if (48 <=? n)%nat && (n <=? 57)%nat then Some (n - 48)
  else if (65 <=? n)%nat && (n <=? 70)%nat then Some (n - 55)
  else if (97 <=? n)%nat && (n <=? 102)%nat then Some (n - 87)
  else None.

(** The bytes of the code unit [n] (below 65536) in UTF-8. *)
Definition utf8 (n : nat) : list ascii :=
  if (n <? 128)%nat then [ascii_of_nat n]
  else if (n <? 2048)%nat
  then [ascii_of_nat (192 + n / 64); ascii_of_nat (128 + n mod 64)]
  else [ascii_of_nat (224 + n / 4096);
        ascii_of_nat (128 + (n / 64) mod 64);
        ascii_of_nat (128 + n mod 64)].

(** The character after a backslash, by its code:
    quote, backslash, slash, b, f, n, r, t. *)
Definition escape (c : ascii) : option ascii :=
  let n := nat_of_ascii c in
  if (n =? 34)%nat || (n =? 92)%nat || (n =? 47)%nat then Some c
  else if (n =? 98)%nat then Some (ascii_of_nat 8)
  else if (n =? 102)%nat then Some (ascii_of_nat 12)
  else if (n =? 110)%nat then Some (ascii_of_nat 10)
  else if (n =? 114)%nat then Some (ascii_of_nat 13)
  else if (n =? 116)%nat then Some (ascii_of_nat 9)
  else None.

Definition hex4 (a b c d : ascii) : option nat :=
  match hex_val a, hex_val b, hex_val c, hex_val d with
  | Some x, Some y, Some z, Some w => Some (((x * 16 + y) * 16 + z) * 16 + w)
  | _, _, _, _ => None
  end.

(** The characters of a string after its opening quote, up to and
    including the closing one. *)
Fixpoint string_body (cs : list ascii) : option (list ascii * list ascii) :=
  match cs with
  | [] => None
  | c :: r =>
      let n := nat_of_ascii c in
      if (n =? 34)%nat then Some ([], r)
      else if (n =? 92)%nat then
        match r with
        | e :: r1 =>
            if (nat_of_ascii e =? 117)%nat then
              match r1 with
              | a :: b :: c' :: d :: r2 =>
                  match hex4 a b c' d, string_body r2 with
                  | Some u, Some (s, rest) => Some (utf8 u ++ s, rest)
                  | _, _ => None
                  end
              | _ => None
              end
            else
              match escape e, string_body r1 with
              | Some x, Some (s, rest) => Some (x :: s, rest)
              | _, _ => None
              end
        | [] => None
        end
      else if (n <? 32)%nat then None
      else
        match string_body r with
        | Some (s, rest) => Some (c :: s, rest)
        | None => None
        end
  end.

(** A number: [-]? int frac? exp?, kept as its literal. *)
Definition number (cs : list ascii) : option (list ascii * list ascii) :=
  let '(sign, cs1) :=
    match cs with
    | c :: r => if (nat_of_ascii c =? 45)%nat then ([c], r) else ([], cs)
    | [] => ([], cs)
    end in
  match cs1 with
  | [] => None
  | c :: r =>
      if negb (is_digit c) then None
      else
        let '(int, r1) :=
          if (nat_of_ascii c =? 48)%nat then ([c], r)
          else let '(ds, r') := span_digits r in (c :: ds, r') in
        let frac :=
          match r1 with
          | p :: r2 =>
              if (nat_of_ascii p =? 46)%nat then
                let '(ds, r3) := span_digits r2 in
                match ds with [] => None | _ => Some (p :: ds, r3) end
              else Some ([], r1)
          | [] => Some ([], r1)
          end in
        match frac with
        | None => None
        | Some (fr, r4) =>
            let exp :=
              match r4 with
              | e :: r5 =>
                  if (nat_of_ascii e =? 101)%nat || (nat_of_ascii e =? 69)%nat
                  then
                    let '(sg, r6) :=
                      match r5 with
                      | g :: r' =>
                          if (nat_of_ascii g =? 43)%nat
                             || (nat_of_ascii g =? 45)%nat
                          then ([g], r') else ([], r5)
                      | [] => ([], r5)
                      end in
                    let '(ds, r7) := span_digits r6 in
                    match ds with
                    | [] => None
                    | _ => Some (e :: sg ++ ds, r7)
                    end
                  else Some ([], r4)
              | [] => Some ([], r4)
              end in
            match exp with
            | None => None
            | Some (ex, r8) => Some (sign ++ int ++ fr ++ ex, r8)
            end
        end
  end.

(** *** Values *)

(** Recursive descent; [fuel] bounds the number of nested calls. *)
Fixpoint value (fuel : nat) (cs : list ascii) {struct fuel}
  : option (json * list ascii) :=
  match fuel with
  | O => None
  | S fuel' =>
      match skip_ws cs with
      | [] => None
      | c :: r =>
          let n := nat_of_ascii c in
          if (n =? 123)%nat then
            match skip_ws r with
            | c' :: r' =>
                if (nat_of_ascii c' =? 125)%nat then Some (JObject [], r')
                else members fuel' r []
            | [] => None
            end
          else if (n =? 91)%nat then
            match skip_ws r with
            | c' :: r' =>
                if (nat_of_ascii c' =? 93)%nat then Some (JArray [], r')
                else elements fuel' r []
            | [] => None
            end
          else if (n =? 34)%nat then
            match string_body r with
            | Some (s, rest) => Some (JString (string_of_list_ascii s), rest)
            | None => None
            end
          else if (n =? 116)%nat then
            option_map (pair (JBool true))
              (strip_prefix (list_ascii_of_string "true") (c :: r))
          else if (n =? 102)%nat then
            option_map (pair (JBool false))
              (strip_prefix (list_ascii_of_string "false") (c :: r))
          else if (n =? 110)%nat then
            option_map (pair JNull)
              (strip_prefix (list_ascii_of_string "null") (c :: r))
          else
            match number (c :: r) with
            | Some (lit, rest) =>
                Some (JNumber (string_of_list_ascii lit), rest)
            | None => None
            end
      end
  end

with elements (fuel : nat) (cs : list ascii) (acc : list json)
       {struct fuel} : option (json * list ascii) :=
  match fuel with
  | O => None
  | S fuel' =>
      match value fuel' cs with
      | None => None
      | Some (v, r) =>
          match skip_ws r with
          | c :: r' =>
              if (nat_of_ascii c =? 44)%nat
              then elements fuel' r' (acc ++ [v])
              else if (nat_of_ascii c =? 93)%nat
              then Some (JArray (acc ++ [v]), r')
              else None
          | [] => None
          end
      end
  end

with members (fuel : nat) (cs : list ascii) (acc : list (string * json))
       {struct fuel} : option (json * list ascii) :=
  match fuel with
  | O => None
  | S fuel' =>
      match skip_ws cs with
      | q :: r =>
          if negb (nat_of_ascii q =? 34)%nat then None
          else
            match string_body r with
            | None => None
            | Some (k, r1) =>
                match skip_ws r1 with
                | c :: r2 =>
                    if negb (nat_of_ascii c =? 58)%nat then None
                    else
                      match value fuel' r2 with
                      | None => None
                      | Some (v, r3) =>
                          let acc' := set (string_of_list_ascii k) v acc in
                          match skip_ws r3 with
                          | d :: r4 =>
                              if (nat_of_ascii d =? 44)%nat
                              then members fuel' r4 acc'
                              else if (nat_of_ascii d =? 125)%nat
                              then Some (JObject acc', r4)
                              else None
                          | [] => None
                          end
                      end
                | [] => None
                end
            end
      | [] => None
      end
  end.

(** [JSON.parse(text)] throws a [SyntaxError] (its wording differs
    between engines) or returns the value.  Every nested call of the
    descent comes after at least one consumed character, so twice the
    length of the text is fuel enough.  The statements about the analysis
    hold for whatever [parse] returns. *)
Definition SyntaxError : Js.thrown :=
  Js.ErrorObject "SyntaxError" "Unexpected token in JSON".

Definition parse (text : string) : Js.thrown + json :=
  match value (2 * String.length text + 2) (list_ascii_of_string text) with
  | Some (v, rest) =>
      match skip_ws rest with
      | [] => inr v
      | _ :: _ => inl SyntaxError
      end
  | None => inl SyntaxError
  end.

End Json.

(* ===================================================================== *)
(** ** src/types.ts *)
(* ===================================================================== *)

Module Types.

Record SkillBreakdown : Type := {
  sb_category : string;
  sb_score : Z
}.

Record WorkExperience : Type := {
  role : string;
  company : string;
  duration : string;
  we_description : list string
}.

Record ContactInfo : Type := {
  email : string;
  phone : string;
  location : string
}.

(** ['High' | 'Medium' | 'Low'] *)
Inductive Priority : Type := High | Medium | Low.

(** ['Content' | 'Keywords' | 'Formatting'] *)
Inductive Category : Type := Content | Keywords | Formatting.

#[global] Instance Priority_eq_dec : EqDecision Priority.
Proof. solve_decision. Defined.

#[global] Instance Category_eq_dec : EqDecision Category.
Proof. solve_decision. Defined.

(** The string a [Category] is at run time. *)
Definition Category_str (c : Category) : string :=
  match c with
  | Content => "Content"
  | Keywords => "Keywords"
  | Formatting => "Formatting"
  end.

Record PlanItem : Type := {
  priority : Priority;
  category : Category;
  action : string;
  explanation : string;
  expectedBenefit : string
}.

Record AnalysisResult : Type := {
  atsScore : Z;
  parsabilityScore : Z;
  keywordMatchScore : Z;
  candidateName : string;
  candidateTitle : string;
  contactInfo : ContactInfo;
  professionalSummary : string;
  workExperience : list WorkExperience;
  extractedSkills : list string;
  missingKeywords : list string;
  strengths : list string;
  weaknesses : list string;
  formattingIssues : list string;
  improvementPlan : list PlanItem;
  skillBreakdown : list SkillBreakdown
}.

(** ['idle' | 'analyzing' | 'success' | 'error'] *)
Inductive AnalysisStatus : Type := idle | analyzing | success | error.

End Types.

(* ===================================================================== *)
(** ** src/services/geminiService.ts *)
(* ===================================================================== *)

Module GeminiService.
Import Json.

(** The [Schema] objects of the SDK, as far as the source uses them:
    [type], [properties], [required], [items], [enum].  The
    [description] texts are hints to the model and are left out. *)
Inductive Schema : Type :=
| NUMBER
| STRING (enum : option (list string))
| ARRAY (items : Schema)
| OBJECT (properties : list (string * Schema)) (required : list string).

Definition ANALYSIS_SCHEMA : Schema :=
  OBJECT
    [ ("atsScore", NUMBER);
      ("parsabilityScore", NUMBER);
      ("keywordMatchScore", NUMBER);
      ("candidateName", STRING None);
      ("candidateTitle", STRING None);
      ("contactInfo",
        OBJECT [ ("email", STRING None);
                 ("phone", STRING None);
                 ("location", STRING None) ]
               [ "email"; "phone"; "location" ]);
      ("professionalSummary", STRING None);
      ("workExperience",
        ARRAY (OBJECT [ ("role", STRING None);
                        ("company", STRING None);
                        ("duration", STRING None);
                        ("description", ARRAY (STRING None)) ]
                      [ "role"; "company"; "duration"; "description" ]));
      ("extractedSkills", ARRAY (STRING None));
      ("missingKeywords", ARRAY (STRING None));
      ("strengths", ARRAY (STRING None));
      ("weaknesses", ARRAY (STRING None));
      ("formattingIssues", ARRAY (STRING None));
      ("improvementPlan",
        ARRAY (OBJECT [ ("priority", STRING (Some [ "High"; "Medium"; "Low" ]));
                        ("category",
                          STRING (Some [ "Content"; "Keywords"; "Formatting" ]));
                        ("action", STRING None);
                        ("explanation", STRING None);
                        ("expectedBenefit", STRING None) ]
                      [ "priority"; "category"; "action"; "explanation";
                        "expectedBenefit" ]));
      ("skillBreakdown",
        ARRAY (OBJECT [ ("category", STRING None); ("score", NUMBER) ]
                      [ "category"; "score" ])) ]
    [ "atsScore"; "parsabilityScore"; "keywordMatchScore"; "candidateName";
      "candidateTitle"; "contactInfo"; "professionalSummary";
      "workExperience"; "extractedSkills"; "missingKeywords"; "strengths";
      "weaknesses"; "formattingIssues"; "improvementPlan"; "skillBreakdown" ].

(** The [required] list of a schema. *)
Definition required_of (s : Schema) : list string :=
  match s with OBJECT _ req => req | _ => [] end.

(** What it means for a value to satisfy a schema: the type matches, a
    string is one of the enumerated ones, every required member is
    there, and every member that has a schema satisfies it. *)
Fixpoint satisfies (s : Schema) (v : json) {struct s} : bool :=
  match s with
  | NUMBER => match v with JNumber _ => true | _ => false end
  | STRING None => match v with JString _ => true | _ => false end
  | STRING (Some allowed) =>
      match v with
      | JString x => existsb (String.eqb x) allowed
      | _ => false
      end
  | ARRAY it =>
      match v with
      | JArray l => forallb (satisfies it) l
      | _ => false
      end
  | OBJECT props req =>
      match v with
      | JObject m =>
          forallb (has_key v) req
          && (fix each (ps : list (string * Schema)) : bool :=
                match ps with
                | [] => true
                | (k, sk) :: ps' =>
                    match get k m with
                    | Some x => satisfies sk x
                    | None => true
                    end && each ps'
                end) props
      | _ => false
      end
  end.

(** The request handed to [ai.models.generateContent]. *)
Record GenerateContentParameters : Type := {
  model : string;
  inlineData_mimeType : string;
  inlineData_data : string;
  text_part : string;
  responseMimeType : string;
  responseSchema : Schema;
  temperature : string
}.

(** The response; [text] is [undefined] when the model returned none. *)
Record GenerateContentResponse : Type := { text : option string }.

(** The external service: for a request, a thrown failure or a response. *)
Definition Service : Type :=
  GenerateContentParameters -> Js.thrown + GenerateContentResponse.

(** A finished run of an [async] function that may call the service:
    the requests it issued, in order, and how its promise settled
    ([inl] rejected with the thrown value, [inr] fulfilled). *)
Record Run (A : Type) : Type := mkRun {
  requests : list GenerateContentParameters;
  settled : Js.thrown + A
}.
Arguments mkRun {A} _ _.
Arguments requests {A} _.
Arguments settled {A} _.

Definition ret {A} (x : A) : Run A := mkRun [] (inr x).
Definition throw {A} (e : Js.thrown) : Run A := mkRun [] (inl e).
Definition lift {A} (r : Js.thrown + A) : Run A := mkRun [] r.

Definition bind {A B} (m : Run A) (k : A -> Run B) : Run B :=
  match settled m with
  | inl e => mkRun (requests m) (inl e)
  | inr x => let n := k x in mkRun (requests m ++ requests n) (settled n)
  end.

(** [try { m } catch (error) { h error }] *)
Definition try_catch {A} (m : Run A) (h : Js.thrown -> Run A) : Run A :=
  match settled m with
  | inl e => let n := h e in mkRun (requests m ++ requests n) (settled n)
  | inr x => m
  end.

(** [await ai.models.generateContent(req)] *)
Definition generateContent (ai : Service) (req : GenerateContentParameters)
  : Run GenerateContentResponse :=
  mkRun [req] (ai req).

#[global] Instance Run_ret : MRet Run := @ret.
#[global] Instance Run_bind : MBind Run := fun A B k m => bind m k.

(** [!s] for a value that is a string or [undefined]. *)
Definition falsy (s : option string) : bool :=
  match s with
  | None => true
  | Some EmptyString => true
  | Some (String _ _) => false
  end.

Definition request (base64Pdf : string) : GenerateContentParameters :=
  {| model := "gemini-2.5-flash";
     inlineData_mimeType := "application/pdf";
     inlineData_data := base64Pdf;
     text_part := "PLACE YOUR PROMPT FOR RESUME ANALYSIS HERE";
     responseMimeType := "application/json";
     responseSchema := ANALYSIS_SCHEMA;
     temperature := "0.1" |}.

(** [analyzeResumeWithGemini].  [env] is [import.meta.env]; [ai] stands
    for the client built from the key.  The value of [JSON.parse] is
    returned as it is: [as AnalysisResult] is erased at run time.
    The [catch] logs the error to the console and throws it again. *)
Definition analyzeResumeWithGemini
    (env : gmap string string) (ai : string -> Service) (base64Pdf : string)
  : Run json :=
  let apiKey := env !! "VITE_API_KEY" in
  if falsy apiKey then
    throw (Js.Error
      "API Key is missing. Please check your environment configuration.")
  else
    let ai := ai (default EmptyString apiKey) in
    try_catch
      (response ← generateContent ai (request base64Pdf);
       let text := text response in
       if falsy text
       then throw (Js.Error "No response extracted from Gemini.")
       else lift (Json.parse (default EmptyString text)))
      (fun error => throw error).

End GeminiService.

(* ===================================================================== *)
(** ** src/components/FileUpload.tsx *)
(* ===================================================================== *)

Module FileUpload.

(** What the handlers read of a DOM [File]. *)
Record File : Type := {
  name : string;
  type : string;
  size : N
}.

(** What a handler does, in order. *)
Inductive Effect : Type :=
| preventDefault
| setIsDragging (b : bool)
| onFileSelect (file : File)
| alert (message : string).

(** [handleDrop], with the prop [disabled] and [e.dataTransfer.files]
    ([None] for a null file list). *)
Definition handleDrop (disabled : bool) (files : option (list File))
  : list Effect :=
  [preventDefault; setIsDragging false]
  ++ (if disabled then []
      else
        match files with
        | Some (file :: _) =>
            if Js.str_eq (type file) "application/pdf"
            then [onFileSelect file]
            else [alert "Please upload a valid PDF file."]
        | Some [] | None => []
        end).

(** [handleInputChange], with [e.target.files]. *)
Definition handleInputChange (files : option (list File)) : list Effect :=
  match files with
  | Some (file :: _) =>
      if Js.str_eq (type file) "application/pdf"
      then [onFileSelect file]
      else [alert "Please upload a valid PDF file."]
  | Some [] | None => []
  end.

(** The text shown under the drop zone. *)
Definition hint : string := "PDF files only (Max 5MB)".

(** The files the callback was called with. *)
Definition selected (effects : list Effect) : list File :=
  flat_map (fun e => match e with onFileSelect f => [f] | _ => [] end)
           effects.

End FileUpload.

(* ===================================================================== *)
(** ** src/components/AnalysisDashboard.tsx: derivation of the feedback *)
(* ===================================================================== *)

Module Dashboard.
Import Types.

(** The state [activeTab]: ['All' | 'Content' | 'Keywords' | 'Formatting']. *)
Inductive Tab : Type := All | TabContent | TabKeywords | TabFormatting.

Definition Tab_str (t : Tab) : string :=
  match t with
  | All => "All"
  | TabContent => "Content"
  | TabKeywords => "Keywords"
  | TabFormatting => "Formatting"
  end.

(** The tab that shows one category. *)
Definition tab_of (c : Category) : Tab :=
  match c with
  | Content => TabContent
  | Keywords => TabKeywords
  | Formatting => TabFormatting
  end.

(** The field [type] of a feedback item. *)
Inductive ItemType : Type := missing_keywords | formatting | plan.

#[global] Instance ItemType_eq_dec : EqDecision ItemType.
Proof. solve_decision. Defined.

(** The type [FeedbackItem] local to [getFilteredFeedback].  Its fields
    [priority] and [category] are written [fi_priority] and [fi_category],
    the plain names being those of the plan entry. *)
Record FeedbackItem : Type := {
  type : ItemType;
  fi_priority : Priority;
  fi_category : Category;
  title : string;
  description : string;
  keywords : option (list string);
  benefit : option string;
  section : string
}.

(** 1. Missing keywords. *)
Definition missingKeywordsItem (data : AnalysisResult) : FeedbackItem :=
  {| type := missing_keywords;
     fi_priority := High;
     fi_category := Keywords;
     title := "Missing Critical Keywords";
     description :=
       "Your resume is missing "
       +:+ pretty (length (missingKeywords data))
       +:+ " top keywords found in typical job descriptions for this role. Adding these can boost your score significantly.";
     keywords := Some (missingKeywords data);
     benefit := None;
     section := "skills" |}.

(** 2. One formatting issue. *)
Definition formattingItem (issue : string) : FeedbackItem :=
  {| type := formatting;
     fi_priority := Medium;
     fi_category := Formatting;
     title := "Formatting Issue";
     description := issue;
     keywords := None;
     benefit := None;
     section := "document" |}.

(** The [section] computed for one entry of the improvement plan. *)
Definition planSection (p : PlanItem) : string :=
  let lowerAction := Js.toLowerCase (action p) in
  if Js.str_eq (Category_str (category p)) "Keywords" then "skills"
  else if Js.includes lowerAction "summary"
          || Js.includes lowerAction "objective" then "summary"
  else if Js.str_eq (Category_str (category p)) "Content" then "experience"
  else "document".

(** 3. One entry of the improvement plan. *)
Definition planItem (p : PlanItem) : FeedbackItem :=
  {| type := plan;
     fi_priority := priority p;
     fi_category := category p;
     title := action p;
     description := explanation p;
     keywords := None;
     benefit := Some (expectedBenefit p);
     section := planSection p |}.

(** The array [items] of [getFilteredFeedback] when its three sources
    have been pushed, before the tab is looked at. *)
Definition derivedItems (data : AnalysisResult) : list FeedbackItem :=
  let items : list FeedbackItem := [] in
  let items :=
    if (0 <? length (missingKeywords data))%nat
    then Js.push items (missingKeywordsItem data)
    else items in
  let items := Js.forEach_push formattingItem (formattingIssues data) items in
  let items := Js.forEach_push planItem (improvementPlan data) items in
  items.

(** [getFilteredFeedback], with the component state [activeTab] and the
    prop [data] as arguments. *)
Definition getFilteredFeedback (data : AnalysisResult) (activeTab : Tab)
  : list FeedbackItem :=
  let items := derivedItems data in
  if Js.str_eq (Tab_str activeTab) "All" then items
  else Js.filter
         (fun item => Js.str_eq (Category_str (fi_category item))
                                (Tab_str activeTab))
         items.

(** Counts for tabs. *)
Definition plan_in (c : string) (data : AnalysisResult) : list PlanItem :=
  Js.filter (fun i => Js.str_eq (Category_str (category i)) c)
            (improvementPlan data).

Definition countContent (data : AnalysisResult) : nat :=
  length (plan_in "Content" data).

Definition countKeywords (data : AnalysisResult) : nat :=
  (if (0 <? length (missingKeywords data))%nat then 1 else 0)
  + length (plan_in "Keywords" data).

Definition countFormatting (data : AnalysisResult) : nat :=
  length (formattingIssues data) + length (plan_in "Formatting" data).

(** The number in the badge of a tab. *)
Definition tabBadge (data : AnalysisResult) (tab : Tab) : nat :=
  if Js.str_eq (Tab_str tab) "All"
  then countContent data + countKeywords data + countFormatting data
  else if Js.str_eq (Tab_str tab) "Content" then countContent data
  else if Js.str_eq (Tab_str tab) "Keywords" then countKeywords data
  else countFormatting data.

End Dashboard.


(* ===================================================================== *)
(** ** App.tsx: the state and its handlers *)
(* ===================================================================== *)

Module App.
Import Types.
Import Json.

(** The three [useState] cells.  The held result is the value that
    [analyzeResumeWithGemini] returned. *)
Record State : Type := {
  status : AnalysisStatus;
  result : option json;
  errorMsg : option string
}.

Definition initial : State :=
  {| status := idle; result := None; errorMsg := None |}.

Definition setStatus (x : AnalysisStatus) (s : State) : State :=
  {| status := x; result := result s; errorMsg := errorMsg s |}.

Definition setResult (x : option json) (s : State) : State :=
  {| status := status s; result := x; errorMsg := errorMsg s |}.

Definition setErrorMsg (x : option string) (s : State) : State :=
  {| status := status s; result := result s; errorMsg := x |}.

(** The first two statements of [handleFileSelect]. *)
Definition handleFileSelect_enter (s : State) : State :=
  setErrorMsg None (setStatus analyzing s).

(** The outer [catch (e)] of [handleFileSelect]. *)
Definition handleFileSelect_catch (s : State) : State :=
  setErrorMsg (Some "An unexpected error occurred.") (setStatus error s).

(** [reader.onerror] *)
Definition reader_onerror (s : State) : State :=
  setErrorMsg (Some "Failed to read file.") (setStatus error s).

(** The functional update after [await] returned [data]. *)
Definition call_resolved (data : json) (s : State) : State :=
  match status s with
  | analyzing => setStatus success (setResult (Some data) s)
  | _ => s
  end.

Definition fallback : string :=
  "Failed to analyze resume. Please try again.".

(** The functional update in the inner [catch (err)]. *)
Definition call_rejected (err : Js.thrown) (s : State) : State :=
  match status s with
  | analyzing =>
      let errorMessage :=
        if Js.instanceof_Error err then Js.message err else fallback in
      setStatus error (setErrorMsg (Some (Js.or_else errorMessage fallback)) s)
  | _ => s
  end.

(** How the promise of the analysis call settled. *)
Definition call_settled (outcome : Js.thrown + json) (s : State) : State :=
  match outcome with
  | inr data => call_resolved data s
  | inl err => call_rejected err s
  end.

Definition cancelAnalysis (s : State) : State :=
  setErrorMsg None (setResult None (setStatus idle s)).

Definition resetAnalysis (s : State) : State :=
  setErrorMsg None (setResult None (setStatus idle s)).

(** *** The running application

    An attempt starts with a call of [handleFileSelect]; its reader and
    then its analysis call finish later, whatever the user did in the
    meantime: neither is aborted by cancel or reset. *)
Inductive Phase : Type :=
| Reading
| Calling (outcome : Js.thrown + json)
| Finished.

Record System : Type := {
  ui : State;
  attempts : list Phase;
  sent : list GeminiService.GenerateContentParameters
}.

Definition boot : System :=
  {| ui := initial; attempts := []; sent := [] |}.

Definition with_ui (f : State -> State) (sys : System) : System :=
  {| ui := f (ui sys); attempts := attempts sys; sent := sent sys |}.

Definition with_attempt (i : nat) (p : Phase) (sys : System) : System :=
  {| ui := ui sys; attempts := <[i := p]> (attempts sys); sent := sent sys |}.

(** [handleFileSelect(file)] up to its return; [reader_starts] is false
    when creating or starting the reader throws. *)
Definition handleFileSelect (reader_starts : bool) (file : FileUpload.File)
    (sys : System) : System :=
  let sys := with_ui handleFileSelect_enter sys in
  if reader_starts
  then {| ui := ui sys; attempts := attempts sys ++ [Reading];
          sent := sent sys |}
  else with_ui handleFileSelect_catch sys.

(** [<FileUpload onFileSelect={handleFileSelect} />]: the effects of an
    upload handler, with the callback bound. *)
Definition upload (reader_starts : bool) (effects : list FileUpload.Effect)
    (sys : System) : System :=
  fold_left
    (fun acc e =>
       match e with
       | FileUpload.onFileSelect file => handleFileSelect reader_starts file acc
       | _ => acc
       end)
    effects sys.

Inductive Event : Type :=
| Drop (files : option (list FileUpload.File)) (reader_starts : bool)
| InputChange (files : option (list FileUpload.File)) (reader_starts : bool)
| ReaderLoad (i : nat) (base64String : string)
| ReaderError (i : nat)
| CallSettles (i : nat)
| ClickCancel
| ClickTryAgain
| ClickAnalyzeNew.

Section Running.
(** The environment of the build and the external service. *)
Variable env : gmap string string.
Variable ai : string -> GeminiService.Service.

(** One event; [None] when it cannot happen: the element is not on
    the page ([FileUpload] is rendered for [idle], the cancel button
    for [analyzing], [Try Again] for [error], the dashboard for
    [success] with a result), or the attempt is not in that phase.
    [FileUpload] gets no [disabled] prop. *)
Definition step (sys : System) (ev : Event) : option System :=
  match ev with
  | Drop files reader_starts =>
      match status (ui sys) with
      | idle =>
          Some (upload reader_starts (FileUpload.handleDrop false files) sys)
      | _ => None
      end
  | InputChange files reader_starts =>
      match status (ui sys) with
      | idle =>
          Some (upload reader_starts (FileUpload.handleInputChange files) sys)
      | _ => None
      end
  | ReaderLoad i base64String =>
      match attempts sys !! i with
      | Some Reading =>
          let run :=
            GeminiService.analyzeResumeWithGemini env ai base64String in
          Some {| ui := ui sys;
                  attempts :=
                    <[i := Calling (GeminiService.settled run)]>
                      (attempts sys);
                  sent := sent sys ++ GeminiService.requests run |}
      | _ => None
      end
  | ReaderError i =>
      match attempts sys !! i with
      | Some Reading =>
          Some (with_attempt i Finished (with_ui reader_onerror sys))
      | _ => None
      end
  | CallSettles i =>
      match attempts sys !! i with
      | Some (Calling outcome) =>
          Some (with_attempt i Finished (with_ui (call_settled outcome) sys))
      | _ => None
      end
  | ClickCancel =>
      match status (ui sys) with
      | analyzing => Some (with_ui cancelAnalysis sys)
      | _ => None
      end
  | ClickTryAgain =>
      match status (ui sys) with
      | error => Some (with_ui resetAnalysis sys)
      | _ => None
      end
  | ClickAnalyzeNew =>
      match status (ui sys), result (ui sys) with
      | success, Some _ => Some (with_ui resetAnalysis sys)
      | _, _ => None
      end
  end.

Fixpoint run (sys : System) (evs : list Event) : option System :=
  match evs with
  | [] => Some sys
  | ev :: evs' =>
      match step sys ev with
      | Some sys' => run sys' evs'
      | None => None
      end
  end.

Definition reachable (sys : System) : Prop :=
  exists evs, run boot evs = Some sys.

End Running.

End App.

(* ===================================================================== *)
(** ** The words of the specification *)
(* ===================================================================== *)

Module Vocabulary.
Import Types.
Import Json.
Import Dashboard.

(** [word] occurs in [text] when the case of the letters A to Z is
    set aside. *)
Definition mentions (text word : string) : Prop :=
  exists pre mid post,
    text = pre +:+ mid +:+ post /\ Js.toLowerCase mid = word.

(** What the first source contributes. *)
Definition keywordsPart (data : AnalysisResult) : list FeedbackItem :=
  match missingKeywords data with
  | [] => []
  | _ :: _ => [missingKeywordsItem data]
  end.

(** The section label in the words of the specification: the decision
    order is the same as in [planSection], but the action text is
    searched as it is. *)
Definition spec_section (p : PlanItem) : string :=
  if decide (category p = Keywords) then "skills"
  else if Js.includes (action p) "summary"
          || Js.includes (action p) "objective" then "summary"
  else if decide (category p = Content) then "experience"
  else "document".

(** A plan entry whose title names the summary in title case. *)
Definition improve_summary : PlanItem :=
  {| priority := High;
     category := Content;
     action := "Improve Summary";
     explanation := "State the target role in the first line.";
     expectedBenefit := "Could boost score by ~5 points" |}.

(** The failures of the specification, as the values the code throws. *)
Definition ConfigurationError : Js.thrown :=
  Js.Error "API Key is missing. Please check your environment configuration.".

Definition EmptyResponseError : Js.thrown :=
  Js.Error "No response extracted from Gemini.".

Definition MalformedResponseError : Js.thrown := Json.SyntaxError.

(** Every required member of the result schema is there. *)
Definition required_present (v : json) : Prop :=
  Forall (fun k => has_key v k = true)
         (GeminiService.required_of GeminiService.ANALYSIS_SCHEMA).


(** What holds of the held result in every state the application can
    be in. *)
Definition result_matches (s : App.State) : Prop :=
  match App.status s with
  | idle | analyzing => App.result s = None
  | success => App.result s <> None
  | error => True
  end.

End Vocabulary.

(* ===================================================================== *)
(** ** Sample inputs *)
(* ===================================================================== *)

Module Samples.
Import Types.
Import Json.
Import GeminiService.

(** Writes a JSON text with ['] for the double quote. *)
Fixpoint dq (s : string) : string :=
  match s with
  | EmptyString => EmptyString
  | String c s' =>
      String (if (nat_of_ascii c =? 39)%nat then ascii_of_nat 34 else c)
             (dq s')
  end.

Definition sample_env : gmap string string :=
  {[ "VITE_API_KEY" := "test-key" ]}.

(** A service that answers every request with the same text. *)
Definition replies (t : option string) : string -> Service :=
  fun _ _ => inr {| text := t |}.

(** A service that fails every request. *)
Definition fails (e : Js.thrown) : string -> Service :=
  fun _ _ => inl e.

Definition sample_text : string :=
  dq "{ 'atsScore': 72, 'parsabilityScore': 80, 'keywordMatchScore': 55,
        'candidateName': 'Ada Lovelace', 'candidateTitle': 'Engineer',
        'contactInfo': { 'email': 'ada@example.org', 'phone': '555-0100',
                         'location': 'London' },
        'professionalSummary': 'Engineer.',
        'workExperience': [ { 'role': 'Engineer', 'company': 'Analytical',
                              'duration': '1842-1843',
                              'description': ['Wrote notes.'] } ],
        'extractedSkills': ['Docker'],
        'missingKeywords': ['Kubernetes', 'Terraform'],
        'strengths': [], 'weaknesses': [], 'formattingIssues': [],
        'improvementPlan': [ { 'priority': 'High', 'category': 'Keywords',
                               'action': 'Add cloud tooling',
                               'explanation': 'Name the cloud tools.',
                               'expectedBenefit': 'About 5 points' } ],
        'skillBreakdown': [ { 'category': 'Cloud', 'score': 40.5 } ] }".

Definition a_pdf : FileUpload.File :=
  {| FileUpload.name := "a.pdf"; FileUpload.type := "application/pdf";
     FileUpload.size := 120000 |}.

Definition b_pdf : FileUpload.File :=
  {| FileUpload.name := "b.pdf"; FileUpload.type := "application/pdf";
     FileUpload.size := 90000 |}.

Definition notes_txt : FileUpload.File :=
  {| FileUpload.name := "notes.txt"; FileUpload.type := "text/plain";
     FileUpload.size := 2000 |}.

(** A PDF of 6 MiB. *)
Definition big_pdf : FileUpload.File :=
  {| FileUpload.name := "big.pdf"; FileUpload.type := "application/pdf";
     FileUpload.size := 6 * 1024 * 1024 |}.

(** The scenario of the specification, with one plan entry. *)
Definition sample : AnalysisResult :=
  {| atsScore := 72; parsabilityScore := 80; keywordMatchScore := 55;
     candidateName := "Ada Lovelace"; candidateTitle := "Engineer";
     contactInfo := {| email := "ada@example.org"; phone := "555-0100";
                       location := "London" |};
     professionalSummary := "Engineer.";
     workExperience := []; extractedSkills := ["Docker"];
     missingKeywords := ["Kubernetes"; "Terraform"];
     strengths := []; weaknesses := [];
     formattingIssues := [];
     improvementPlan :=
       [ {| priority := High; category := Keywords;
            action := "Add cloud tooling";
            explanation := "Name the cloud tools you used.";
            expectedBenefit := "Could boost score by ~5 points" |} ];
     skillBreakdown := [] |}.

End Samples.

(* ===================================================================== *)
(** ** Numbers *)
(* ===================================================================== *)

Module Num.

(** A finite JavaScript number is a rational, and its comparison with
    another one is the comparison of the two rationals. *)
Definition ge (a b : Q) : bool := Qle_bool b a.
Definition gt (a b : Q) : bool := negb (Qle_bool a b).
Definition lt (a b : Q) : bool := negb (Qle_bool b a).

(** [a % b] on integers: the remainder has the sign of [a]. *)
Definition rem (a b : Z) : Z := Z.rem a b.

End Num.

(* ===================================================================== *)
(** ** src/components/ScoreChart.tsx *)
(* ===================================================================== *)

Module ScoreChart.

Definition BRAND_MEDIUM_BLUE : string := "#2368a0".
Definition BRAND_LIGHT_BLUE : string := "#00aae7".
Definition BRAND_RED : string := "#ef4048".

Definition getScoreColor (val : Q) : string :=
  if Num.ge val 80 then BRAND_MEDIUM_BLUE
  else if Num.ge val 60 then BRAND_LIGHT_BLUE
  else BRAND_RED.

(** The sentence under the gauge. *)
Definition scoreSentence (score : Q) : string :=
  if Num.ge score 80 then "Excellent! Your resume is highly optimized."
  else if Num.ge score 60 then "Good start, but needs refinement."
  else "Significant improvements recommended.".

End ScoreChart.

(* ===================================================================== *)
(** ** The loading screen *)
(* ===================================================================== *)

Module LoadingScreen.

Definition INSIGHTS : list (string * string) :=
  [ ("Quantify your impact with numbers",
     "Resumes with metrics (e.g., 'Increased sales by 20%') are 40% more likely to get an interview than those that just list duties. Recruiters love seeing tangible proof of your achievements.");
    ("Tailor your skills section",
     "75% of ATS algorithms filter candidates based on keyword matches in the 'Skills' section relative to the job description. Make sure to mirror the language of the job post.");
    ("Use strong active verbs",
     "Start bullet points with strong action verbs like 'Spearheaded', 'Orchestrated', or 'Developed'. Avoid passive phrases like 'Responsible for' or 'Helped with'.");
    ("Keep formatting simple",
     "Complex columns, tables, and graphics often confuse ATS parsers. A clean, single-column layout is the safest bet for ensuring your data is read correctly.") ].

(** [INSIGHTS.length] *)
Definition INSIGHTS_length : Z := Z.of_nat (length INSIGHTS).

(** The update of the timer and of the right arrow. *)
Definition nextInsight (prev : Z) : Z :=
  Num.rem (prev + 1) INSIGHTS_length.

(** The update of the left arrow. *)
Definition previousInsight (prev : Z) : Z :=
  Num.rem (prev - 1 + INSIGHTS_length) INSIGHTS_length.

(** [INSIGHTS[currentInsight]]: [None] is [undefined], on which reading
    [.title] throws. *)
Definition insightAt (currentInsight : Z) : option (string * string) :=
  if (currentInsight <? 0)%Z then None
  else INSIGHTS !! Z.to_nat currentInsight.

(** What the user does to the insight card, or the timer. *)
Inductive InsightEvent : Type := TimerTick | ClickNext | ClickPrevious.

Definition onInsightEvent (currentInsight : Z) (ev : InsightEvent) : Z :=
  match ev with
  | TimerTick | ClickNext => nextInsight currentInsight
  | ClickPrevious => previousInsight currentInsight
  end.

(** ['completed' | 'active' | 'pending'] *)
Inductive StepStatus : Type := completed | active | pending.

Definition getStepStatus (progress : Q) (stepIndex : Z) : StepStatus :=
  let threshold := inject_Z (stepIndex * 25) in
  if Num.gt progress (threshold + 25) then completed
  else if Num.gt progress threshold then active
  else pending.

(** The status of a step of the grid: step 0 is always complete. *)
Definition stepStatus (progress : Q) (index : Z) : StepStatus :=
  if (index =? 0)%Z then completed else getStepStatus progress index.

(** The number in "Step n of 4". *)
Definition headlineStep (progress : Q) : Z :=
  if Num.lt progress 40 then 2 else if Num.lt progress 70 then 3 else 4.

End LoadingScreen.

(* ===================================================================== *)
(** ** src/components/AnalysisDashboard.tsx: what is rendered *)
(* ===================================================================== *)

Module DashboardView.
Import Types.
Import Dashboard.

(** *** The three score cards *)

Definition atsBarClass (atsScore : Q) : string :=
  if Num.ge atsScore 80 then "bg-green-500"
  else if Num.ge atsScore 60 then "bg-brand-lightblue"
  else "bg-brand-red".

Definition atsLabel (atsScore : Q) : string :=
  if Num.ge atsScore 80 then "Excellent"
  else if Num.ge atsScore 60 then "Good Start"
  else "Needs Work".

Definition parsabilityIconClass (parsabilityScore : Q) : string :=
  if Num.ge parsabilityScore 90 then "bg-green-100 text-green-600"
  else "bg-yellow-100 text-yellow-600".

Definition parsabilityText (parsabilityScore : Q) : string :=
  if Num.ge parsabilityScore 90 then "Format is machine-readable."
  else "Layout may confuse some ATS.".

Definition keywordIconClass (keywordMatchScore : Q) : string :=
  if Num.ge keywordMatchScore 80 then "bg-green-100 text-green-600"
  else "bg-brand-red/10 text-brand-red".

Definition keywordTextClass (keywordMatchScore : Q) : string :=
  if Num.lt keywordMatchScore 70 then "text-brand-red font-medium"
  else "text-brand-darkgrey".

Definition keywordText (keywordMatchScore : Q) : string :=
  if Num.lt keywordMatchScore 70 then "Critical keywords missing."
  else "Good keyword coverage.".

(** *** The skills of the preview *)

(** [data.extractedSkills.slice(0, 15)] *)
Definition shownSkills (data : AnalysisResult) : list string :=
  take 15 (extractedSkills data).

(** The number in "+n more", when that is rendered. *)
Definition moreSkills (data : AnalysisResult) : option nat :=
  if (15 <? length (extractedSkills data))%nat
  then Some (length (extractedSkills data) - 15)
  else None.

(** *** A card of the feedback feed *)

Definition Priority_str (p : Priority) : string :=
  match p with High => "High" | Medium => "Medium" | Low => "Low" end.

Definition isHighImpact (item : FeedbackItem) : bool :=
  Js.str_eq (Priority_str (fi_priority item)) "High".

Definition isFormatting (item : FeedbackItem) : bool :=
  Js.str_eq (Category_str (fi_category item)) "Formatting".

(** The red border on the left. *)
Definition hasAlert (item : FeedbackItem) : bool :=
  isHighImpact item || isFormatting item.

(** The four icons, by the classes of their circle. *)
Inductive Icon : Type :=
| RedCircle      (* bg-red-100 text-red-500 *)
| RedWarning     (* bg-red-50 text-brand-red *)
| AmberWarning   (* bg-amber-100 text-amber-500 *)
| BlueInfo.      (* bg-blue-100 text-blue-500 *)

Definition icon (item : FeedbackItem) : Icon :=
  if Js.str_eq (Priority_str (fi_priority item)) "High" then RedCircle
  else if Js.str_eq (Category_str (fi_category item)) "Formatting"
  then RedWarning
  else if Js.str_eq (Priority_str (fi_priority item)) "Medium"
  then AmberWarning
  else BlueInfo.

Definition badgeText (item : FeedbackItem) : string :=
  if Js.str_eq (Priority_str (fi_priority item)) "High" then "High Impact"
  else if Js.str_eq (Priority_str (fi_priority item)) "Medium"
  then "Medium Impact"
  else "Suggestion".

(** The keywords listed on the card, if the block is rendered: an array
    is truthy even when empty. *)
Definition keywordChips (item : FeedbackItem) : option (list string) :=
  match type item, keywords item with
  | missing_keywords, Some kws => Some kws
  | _, _ => None
  end.

(** The benefit line of the card, if it is rendered: the empty string is
    falsy. *)
Definition benefitLine (item : FeedbackItem) : option string :=
  match type item, benefit item with
  | plan, Some (String c s) => Some (String c s)
  | _, _ => None
  end.

(** "No issues found in this category." is rendered. *)
Definition emptyNotice (feedbackItems : list FeedbackItem) : bool :=
  (length feedbackItems =? 0)%nat.

(** *** The preview

    The regions of the preview that can be highlighted, by the value of
    [highlightedSection] each one listens to. *)
Definition previewRegions : list string :=
  ["document"; "summary"; "experience"; "skills"].

(** [onMouseEnter] and [onMouseLeave] of a card. *)
Definition onMouseEnter (item : FeedbackItem) : option string :=
  Some (section item).

Definition onMouseLeave : option string := None.

(** The regions that are highlighted. *)
Definition highlighted (highlightedSection : option string) : list string :=
  List.filter
    (fun region =>
       match highlightedSection with
       | Some s => Js.str_eq s region
       | None => false
       end)
    previewRegions.

(** *** The export

    For the regular expression a string is the sequence of its UTF-16
    code units. *)

(** [\s]: the white space and line terminator code units. *)
Definition is_space (c : N) : bool :=
  ((9 <=? c) && (c <=? 13) || (c =? 32) || (c =? 160) || (c =? 5760)
   || (8192 <=? c) && (c <=? 8202) || (c =? 8232) || (c =? 8233)
   || (c =? 8239) || (c =? 8287) || (c =? 12288) || (c =? 65279))%N.

Definition underscore : N := 95.

(** [s.replace(/\s+/g, '_')]; [in_run] says that the code unit before was
    white space, already replaced. *)
Fixpoint replace_spaces (in_run : bool) (s : list N) : list N :=
  match s with
  | [] => []
  | c :: r =>
      if is_space c
      then (if in_run then replace_spaces true r
            else underscore :: replace_spaces true r)
      else c :: replace_spaces false r
  end.

Definition code_units (s : string) : list N :=
  map N_of_ascii (list_ascii_of_string s).

(** The argument of [pdf.save]. *)
Definition exportFileName (candidateName : list N) : list N :=
  replace_spaces false candidateName ++ code_units "_Resume_Analysis.pdf".

(** What [handleExportPDF] does, in order; a call of the [try] block
    is listed when it has returned. *)
Inductive ExportEffect : Type :=
| setIsExporting (b : bool)
| html2canvas
| toDataURL
| addImage
| save (fileName : list N)
| console_error
| alert (message : string).

(** The part of the [try] block that throws, if one does: the rendering
    of the canvas, its encoding, the making of the page with the image,
    or the saving under the file name. *)
Inductive ExportStep : Type := Render | Encode | Page | Save.

(** The [try] block up to the part that throws. *)
Definition try_block (candidateName : list N) (throws : option ExportStep)
  : list ExportEffect :=
  match throws with
  | Some Render => []
  | Some Encode => [html2canvas]
  | Some Page => [html2canvas; toDataURL]
  | Some Save => [html2canvas; toDataURL; addImage]
  | None =>
      [html2canvas; toDataURL; addImage; save (exportFileName candidateName)]
  end.

(** [handleExportPDF]; [element] says whether the element to print was
    found in the document. *)
Definition handleExportPDF (candidateName : list N) (element : bool)
    (throws : option ExportStep) : list ExportEffect :=
  [setIsExporting true]
  ++ (if negb element then [setIsExporting false]
      else
        try_block candidateName throws
        ++ (match throws with
            | Some _ =>
                [console_error; alert "Failed to export PDF. Please try again."]
            | None => []
            end)
        ++ [setIsExporting false]).

(** The value of [isExporting] after a run of effects. *)
Definition isExporting_after (before : bool) (effects : list ExportEffect)
  : bool :=
  fold_left (fun b e => match e with setIsExporting x => x | _ => b end)
            effects before.

(** The file names that were saved, and the alerts that were shown. *)
Definition saved (effects : list ExportEffect) : list (list N) :=
  flat_map (fun e => match e with save f => [f] | _ => [] end) effects.

Definition alerts (effects : list ExportEffect) : list string :=
  flat_map (fun e => match e with alert m => [m] | _ => [] end) effects.

End DashboardView.

(* ===================================================================== *)
(** ** App.tsx: what is rendered *)
(* ===================================================================== *)

Module AppView.
Import Types.
Import Json.
Import App.

(** What the four conditional expressions of [<main>] evaluate to.  For
    the last one, [status === 'success' && result && (...)], this is the
    dashboard on the held value when that value is truthy, and the held
    value itself when it is falsy; what the page shows for a falsy value,
    and whether the dashboard renders on the value it is given, is not
    part of this. *)
Inductive Block : Type :=
| Landing
| Loading
| ErrorPanel (errorMsg : option string)
| DashboardOn (data : json)
| Falsy (value : json).

(** The value of the cell [result]: the [null] it starts with and is
    reset to is the [null] that [JSON.parse] returns for the text
    [null]. *)
Definition cell (result : option json) : json := default JNull result.

Section Truthiness.
(** Whether the number that a literal denotes is zero: the conversion of
    a literal to a number is not modelled. *)
Variable denotes_zero : string -> bool.

(** The truthiness of a parsed value: [null], [false], zero and the
    empty string are falsy, objects and arrays are truthy. *)
Definition truthy (v : json) : bool :=
  match v with
  | JNull => false
  | JBool b => b
  | JNumber literal => negb (denotes_zero literal)
  | JString EmptyString => false
  | JString (String _ _) => true
  | JArray _ | JObject _ => true
  end.

(** The four conditional blocks, in the order of the source. *)
Definition main (s : State) : list Block :=
  (match status s with idle => [Landing] | _ => [] end)
  ++ (match status s with analyzing => [Loading] | _ => [] end)
  ++ (match status s with error => [ErrorPanel (errorMsg s)] | _ => [] end)
  ++ (match status s with
      | success =>
          if truthy (cell (result s))
          then [DashboardOn (cell (result s))]
          else [Falsy (cell (result s))]
      | _ => []
      end).

End Truthiness.

End AppView.

(* ===================================================================== *)
(** ** Reading a schema *)
(* ===================================================================== *)

Module SchemaView.
Import GeminiService.

(** The schema that [properties] gives for the member [k]. *)
Fixpoint property (k : string) (props : list (string * Schema))
  : option Schema :=
  match props with
  | [] => None
  | (k', sk) :: props' => if String.eqb k k' then Some sk else property k props'
  end.

End SchemaView.

(* ===================================================================== *)
(** ** src/components/FileUpload.tsx: the drag handlers *)
(* ===================================================================== *)

Module FileUploadDrag.
Import FileUpload.

(** [handleDragOver] *)
Definition handleDragOver (disabled : bool) : list Effect :=
  [preventDefault] ++ (if negb disabled then [setIsDragging true] else []).

(** [handleDragLeave] *)
Definition handleDragLeave : list Effect :=
  [preventDefault; setIsDragging false].

(** The events of the drop zone. *)
Inductive DragEvent : Type :=
| DragOver
| DragLeave
| DropFiles (files : option (list File)).

Definition handle (disabled : bool) (ev : DragEvent) : list Effect :=
  match ev with
  | DragOver => handleDragOver disabled
  | DragLeave => handleDragLeave
  | DropFiles files => handleDrop disabled files
  end.

(** The state [isDragging] after a run of effects. *)
Definition isDragging_after (before : bool) (effects : list Effect) : bool :=
  fold_left (fun b e => match e with setIsDragging x => x | _ => b end)
            effects before.

(** The alerts shown by a run of effects. *)
Definition alerts (effects : list Effect) : list string :=
  flat_map (fun e => match e with alert m => [m] | _ => [] end) effects.

End FileUploadDrag.

(* ===================================================================== *)
(** ** Notions about the running application *)
(* ===================================================================== *)

Module AppNotions.
Import Types.
Import App.

(** The message is there in the state error, and only there. *)
Definition message_matches (s : State) : Prop :=
  match status s with
  | error => exists m, errorMsg s = Some m /\ m <> EmptyString
  | _ => errorMsg s = None
  end.

Definition is_reading (p : Phase) : bool :=
  match p with Reading => true | _ => false end.

(** The attempts whose reader has ended. *)
Definition started (attempts : list Phase) : nat :=
  length (filter (fun p => is_reading p = false) attempts).

(** Where the values in the attempts and in the cell come from: each is
    an outcome of the analysis of some document. *)
Definition from_analysis (env : gmap string string)
    (ai : string -> GeminiService.Service) (sys : System) : Prop :=
  Forall (fun p =>
            match p with
            | Calling outcome =>
                exists b,
                  outcome
                  = GeminiService.settled
                      (GeminiService.analyzeResumeWithGemini env ai b)
            | _ => True
            end)
         (attempts sys)
  /\ (forall data, result (ui sys) = Some data ->
         exists b,
           GeminiService.settled
             (GeminiService.analyzeResumeWithGemini env ai b) = inr data).

(** The two ways to hand over the files [files], with a reader that
    starts. *)
Definition hands_over (ev : Event) (files : list FileUpload.File) : Prop :=
  ev = Drop (Some files) true \/ ev = InputChange (Some files) true.

End AppNotions.

(* ===================================================================== *)
(** ** Sample runs of the application *)
(* ===================================================================== *)

Module SampleRuns.
Import App.
Import Samples.

(** A run that ends in success: a file is chosen, cancelled, another one
    is chosen, read and analysed. *)
Definition success_run : list Event :=
  [InputChange (Some [a_pdf]) true; ClickCancel;
   Drop (Some [b_pdf; notes_txt]) true; ReaderLoad 1 "QkJC"; CallSettles 1].

(** A run that ends in an error: the service is down. *)
Definition failure_run : list Event :=
  [InputChange (Some [a_pdf]) true; ReaderLoad 0 "QUFB"; CallSettles 0].

Definition down : Js.thrown :=
  Js.ErrorObject "ApiError" "503 Service Unavailable".

End SampleRuns.

(* ===================================================================== *)
(** * Statements *)
(* ===================================================================== *)

(** ** Arrays *)

Section ArrayFacts.
Context {A B : Type}.

Lemma forEach_push_map (f : A -> B) (xs : list A) (items : list B) :
  Js.forEach_push f xs items = items ++ map f xs.
Proof.
  unfold Js.forEach_push, Js.push.
  revert items; induction xs as [|x xs IH]; intros items; simpl.
  - by rewrite app_nil_r.
  - rewrite IH. by rewrite <- app_assoc.
Qed.

Lemma js_filter_from (p : A -> bool) (xs acc : list A) :
  fold_left (fun acc x => if p x then Js.push acc x else acc) xs acc
  = acc ++ List.filter p xs.
Proof.
  revert acc; induction xs as [|x xs IH]; intros acc; simpl.
  - by rewrite app_nil_r.
  - rewrite IH. destruct (p x); [|done].
    unfold Js.push. by rewrite <- app_assoc.
Qed.

Lemma js_filter_list (p : A -> bool) (xs : list A) :
  Js.filter p xs = List.filter p xs.
Proof. unfold Js.filter. by rewrite js_filter_from. Qed.

(** The test of the source, read as a proposition. *)
Lemma js_filter_prop (p : A -> bool) (P : A -> Prop)
    `{!forall x, Decision (P x)} (xs : list A) :
  (forall x, p x = true <-> P x) ->
  Js.filter p xs = filter P xs.
Proof.
  intros Hp. rewrite js_filter_list.
  induction xs as [|x xs IH]; [done|]. simpl.
  rewrite filter_cons. rewrite IH.
  destruct (p x) eqn:E.
  - rewrite decide_True; [done|]. by apply Hp.
  - rewrite decide_False; [done|]. intros HP. apply Hp in HP. congruence.
Qed.

End ArrayFacts.

(** ** Strings *)

Section StringFacts.
Import Vocabulary.
Import Samples.

Lemma prefix_append (w s : string) :
  String.prefix w s = true <-> exists post, s = w +:+ post.
Proof.
  revert s; induction w as [|a w IH]; intros s.
  - split; [intros _; by exists s|intros _; by destruct s].
  - destruct s as [|b s]; simpl.
    + split; [done|]. by intros [post ?].
    + destruct (ascii_dec a b) as [->|Hne].
      * rewrite IH. split; intros [post H]; exists post; [by rewrite H|].
        by injection H.
      * split; [done|]. intros [post H]. injection H as ? ?. congruence.
Qed.

Lemma includes_append (s w : string) :
  Js.includes s w = true <-> exists pre post, s = pre +:+ w +:+ post.
Proof.
  induction s as [|c s IH]; cbn [Js.includes].
  - rewrite orb_false_r, prefix_append. split.
    + intros [post H]. by exists EmptyString, post.
    + intros (pre & post & H). destruct pre; [by exists post|done].
  - rewrite orb_true_iff, IH, prefix_append. split.
    + intros [[post H]|(pre & post & H)].
      * by exists EmptyString, post.
      * exists (String c pre), post. simpl. by rewrite H.
    + intros (pre & post & H). destruct pre as [|d pre]; simpl in H.
      * left. by exists post.
      * right. injection H as ? ?. by exists pre, post.
Qed.

Lemma toLowerCase_append (a b : string) :
  Js.toLowerCase (a +:+ b) = Js.toLowerCase a +:+ Js.toLowerCase b.
Proof. induction a as [|c a IH]; simpl; [done|by rewrite IH]. Qed.

Lemma toLowerCase_split (a x y : string) :
  Js.toLowerCase a = x +:+ y ->
  exists a1 a2, a = a1 +:+ a2 /\ Js.toLowerCase a1 = x /\ Js.toLowerCase a2 = y.
Proof.
  revert a; induction x as [|c x IH]; intros a H; simpl in H.
  - by exists EmptyString, a.
  - destruct a as [|d a]; [done|]. simpl in H. injection H as Hc Ha.
    destruct (IH a Ha) as (a1 & a2 & -> & H1 & H2).
    exists (String d a1), a2. simpl. by rewrite Hc, H1.
Qed.

Lemma includes_lower_mentions (text word : string) :
  Js.includes (Js.toLowerCase text) word = true <-> mentions text word.
Proof.
  rewrite includes_append. unfold mentions. split.
  - intros (pre & post & H).
    apply toLowerCase_split in H as (a1 & a2 & -> & _ & H).
    apply toLowerCase_split in H as (a3 & a4 & -> & H & _).
    by exists a1, a3, a4.
  - intros (pre & mid & post & -> & <-).
    exists (Js.toLowerCase pre), (Js.toLowerCase post).
    by rewrite !toLowerCase_append.
Qed.

End StringFacts.

(** ** The feedback list of the dashboard *)

Section DashboardFacts.
Import Types.
Import Dashboard.
Import Vocabulary.
Import Samples.

Lemma derivedItems_parts (data : AnalysisResult) :
  derivedItems data
  = keywordsPart data
    ++ map formattingItem (formattingIssues data)
    ++ map planItem (improvementPlan data).
Proof.
  unfold derivedItems, keywordsPart.
  rewrite !forEach_push_map.
  destruct (missingKeywords data); simpl; by rewrite <- ?app_assoc.
Qed.

Lemma category_is (c x : Category) :
  Js.str_eq (Category_str c) (Category_str x) = true <-> c = x.
Proof. destruct c, x; simpl; split; intros; congruence. Qed.

Lemma tab_of_str (x : Category) : Tab_str (tab_of x) = Category_str x.
Proof. by destruct x. Qed.

Lemma filtered_by_category (data : AnalysisResult) (x : Category) :
  getFilteredFeedback data (tab_of x)
  = filter (fun item => fi_category item = x) (derivedItems data).
Proof.
  unfold getFilteredFeedback. rewrite tab_of_str.
  replace (Js.str_eq (Category_str x) "All") with false by by destruct x.
  apply js_filter_prop. intros item. apply category_is.
Qed.

Lemma plan_in_category (data : AnalysisResult) (x : Category) :
  plan_in (Category_str x) data
  = filter (fun p => category p = x) (improvementPlan data).
Proof. apply js_filter_prop. intros p. apply category_is. Qed.

Lemma plan_three_categories (l : list PlanItem) :
  length (filter (fun p => category p = Content) l)
  + length (filter (fun p => category p = Keywords) l)
  + length (filter (fun p => category p = Formatting) l)
  = length l.
Proof.
  induction l as [|p l IH]; [done|].
  rewrite !filter_cons.
  destruct (category p); simpl; lia.
Qed.

Lemma filter_plan_items (x : Category) (l : list PlanItem) :
  filter (fun item => fi_category item = x) (map planItem l)
  = map planItem (filter (fun p => category p = x) l).
Proof.
  induction l as [|p l IH]; [done|]. simpl.
  rewrite !filter_cons. simpl. rewrite IH.
  by destruct (decide (category p = x)).
Qed.

Lemma filter_formatting_items (x : Category) (l : list string) :
  filter (fun item => fi_category item = x) (map formattingItem l)
  = if decide (x = Formatting) then map formattingItem l else [].
Proof.
  induction l as [|s l IH]; [by destruct (decide _)|]. simpl.
  rewrite filter_cons. simpl. rewrite IH.
  destruct x; simpl; done.
Qed.

Lemma filter_keywordsPart (x : Category) (data : AnalysisResult) :
  filter (fun item => fi_category item = x) (keywordsPart data)
  = if decide (x = Keywords) then keywordsPart data else [].
Proof.
  unfold keywordsPart. destruct (missingKeywords data).
  - by destruct (decide _).
  - rewrite filter_cons. simpl. destruct x; simpl; done.
Qed.

Lemma keywordsPart_length (data : AnalysisResult) :
  length (keywordsPart data)
  = if (0 <? length (missingKeywords data))%nat then 1 else 0.
Proof. unfold keywordsPart. by destruct (missingKeywords data). Qed.

(** The list shown for the tab of [x] has as many items as the badge
    of that tab says. *)
Lemma shown_length (data : AnalysisResult) (x : Category) :
  length (getFilteredFeedback data (tab_of x)) = tabBadge data (tab_of x).
Proof.
  rewrite filtered_by_category, derivedItems_parts, !filter_app.
  rewrite filter_keywordsPart, filter_formatting_items, filter_plan_items.
  rewrite !length_app, length_map.
  unfold tabBadge, countContent, countKeywords, countFormatting.
  pose proof (plan_in_category data Content) as HC.
  pose proof (plan_in_category data Keywords) as HK.
  pose proof (plan_in_category data Formatting) as HF.
  simpl in HC, HK, HF.
  destruct x; simpl; rewrite ?HC, ?HK, ?HF, ?keywordsPart_length, ?length_map;
    lia.
Qed.

(** C2.  With the tab "All" active the list has as many items as the
    three per-tab counts together, which is also the number in the badge
    of "All"; the counts are: Content, the plan entries of category
    Content; Keywords, one if there are missing keywords plus the plan
    entries of category Keywords; Formatting, the formatting issues plus
    the plan entries of category Formatting; and each of them is the
    length of the list shown for its tab. *)
Theorem all_tab_count_is_sum (data : AnalysisResult) :
  length (getFilteredFeedback data All)
  = countContent data + countKeywords data + countFormatting data
  /\ tabBadge data All
     = countContent data + countKeywords data + countFormatting data
  /\ countContent data
     = length (filter (fun p => category p = Content) (improvementPlan data))
  /\ countKeywords data
     = (match missingKeywords data with [] => 0 | _ :: _ => 1 end)
       + length (filter (fun p => category p = Keywords) (improvementPlan data))
  /\ countFormatting data
     = length (formattingIssues data)
       + length (filter (fun p => category p = Formatting)
                        (improvementPlan data))
  /\ length (getFilteredFeedback data TabContent) = countContent data
  /\ length (getFilteredFeedback data TabKeywords) = countKeywords data
  /\ length (getFilteredFeedback data TabFormatting) = countFormatting data.
Proof.
  pose proof (plan_in_category data Content) as HC.
  pose proof (plan_in_category data Keywords) as HK.
  pose proof (plan_in_category data Formatting) as HF.
  simpl in HC, HK, HF.
  assert (HcC : countContent data
    = length (filter (fun p => category p = Content) (improvementPlan data))).
  { unfold countContent. by rewrite HC. }
  assert (HcK : countKeywords data
    = (match missingKeywords data with [] => 0 | _ :: _ => 1 end)
      + length (filter (fun p => category p = Keywords) (improvementPlan data))).
  { unfold countKeywords. rewrite HK. by destruct (missingKeywords data). }
  assert (HcF : countFormatting data
    = length (formattingIssues data)
      + length (filter (fun p => category p = Formatting)
                       (improvementPlan data))).
  { unfold countFormatting. by rewrite HF. }
  split_and!; try done.
  - unfold getFilteredFeedback. simpl.
    rewrite derivedItems_parts, !length_app, !length_map.
    rewrite HcC, HcK, HcF.
    pose proof (plan_three_categories (improvementPlan data)).
    unfold keywordsPart. destruct (missingKeywords data); simpl; lia.
  - apply (shown_length data Content).
  - apply (shown_length data Keywords).
  - apply (shown_length data Formatting).
Qed.

(** C3.  For a category [x], the list shown for the tab of [x] is the
    derived list restricted to the items whose [category] is [x]: every
    shown item has that category, every derived item of that category is
    shown, as often and in the same order as in the derived list; the tab
    "All" shows the derived list as it is. *)
Theorem filter_keeps_category_and_order (data : AnalysisResult) (x : Category) :
  getFilteredFeedback data All = derivedItems data
  /\ getFilteredFeedback data (tab_of x)
     = filter (fun item => fi_category item = x) (derivedItems data)
  /\ Forall (fun item => fi_category item = x)
            (getFilteredFeedback data (tab_of x))
  /\ (forall item, item ∈ derivedItems data -> fi_category item = x ->
                   item ∈ getFilteredFeedback data (tab_of x))
  /\ sublist (getFilteredFeedback data (tab_of x)) (derivedItems data).
Proof.
  rewrite filtered_by_category. split_and!.
  - done.
  - done.
  - apply Forall_forall. intros item Hin.
    by apply list_elem_of_filter in Hin as [? _].
  - intros item Hin Hx. by apply list_elem_of_filter.
  - apply sublist_filter.
Qed.

(** C4.  The derived list is, in this order: the "Missing Critical
    Keywords" item (priority High, category Keywords, carrying the whole
    list of missing keywords) when [missingKeywords] is not empty and
    nothing when it is empty; one item of priority Medium and category
    Formatting per formatting issue, in their order; one item per plan
    entry, in their order, with the priority and category of the entry.
    So the list holds exactly one item of type [missing_keywords] when
    there are missing keywords and none otherwise, whatever the other
    fields are, and no other item carries a keyword list. *)
Theorem feedback_from_three_sources (data : AnalysisResult) :
  derivedItems data
  = (match missingKeywords data with
     | [] => []
     | _ :: _ => [missingKeywordsItem data]
     end)
    ++ map formattingItem (formattingIssues data)
    ++ map planItem (improvementPlan data)
  /\ (title (missingKeywordsItem data) = "Missing Critical Keywords"
      /\ fi_priority (missingKeywordsItem data) = High
      /\ fi_category (missingKeywordsItem data) = Keywords
      /\ keywords (missingKeywordsItem data) = Some (missingKeywords data))
  /\ Forall2 (fun issue item =>
                fi_priority item = Medium /\ fi_category item = Formatting
                /\ description item = issue)
             (formattingIssues data)
             (map formattingItem (formattingIssues data))
  /\ Forall2 (fun p item =>
                fi_priority item = priority p /\ fi_category item = category p
                /\ title item = action p)
             (improvementPlan data)
             (map planItem (improvementPlan data))
  /\ length (filter (fun item => type item = missing_keywords)
                    (derivedItems data))
     = (match missingKeywords data with [] => 0 | _ :: _ => 1 end)
  /\ Forall (fun item =>
               keywords item = None \/
               (type item = missing_keywords
                /\ keywords item = Some (missingKeywords data)))
            (derivedItems data).
Proof.
  split; [apply derivedItems_parts|].
  split; [done|].
  split_and!.
  - induction (formattingIssues data); simpl; constructor; done.
  - induction (improvementPlan data); simpl; constructor; done.
  - rewrite derivedItems_parts, !filter_app, !length_app.
    assert (Hf : forall l, filter (fun item => type item = missing_keywords)
                             (map formattingItem l) = []).
    { induction l; [done|]. simpl. by rewrite filter_cons. }
    assert (Hp : forall l, filter (fun item => type item = missing_keywords)
                             (map planItem l) = []).
    { induction l; [done|]. simpl. by rewrite filter_cons. }
    rewrite Hf, Hp. unfold keywordsPart.
    by destruct (missingKeywords data).
  - rewrite derivedItems_parts. rewrite !Forall_app. split_and!.
    + unfold keywordsPart. destruct (missingKeywords data) eqn:E; [done|].
      constructor; [|done]. right. simpl. by rewrite E.
    + apply Forall_forall. intros item Hin.
      apply list_elem_of_fmap in Hin as (s & -> & _). by left.
    + apply Forall_forall. intros item Hin.
      apply list_elem_of_fmap in Hin as (s & -> & _). by left.
Qed.

(** The scenario of the specification: two missing keywords, no
    formatting issue, one plan entry of category Keywords. *)
Example scenario_of_the_specification :
  length (getFilteredFeedback sample All) = 2
  /\ tabBadge sample All = 2
  /\ tabBadge sample TabKeywords = 2
  /\ tabBadge sample TabFormatting = 0
  /\ tabBadge sample TabContent = 0
  /\ description (missingKeywordsItem sample)
     = "Your resume is missing 2 top keywords found in typical job descriptions for this role. Adding these can boost your score significantly.".
Proof. split_and!; reflexivity. Qed.

(** C5, as stated, fails: for the Content entry titled "Improve Summary"
    the derived item points at the summary, while the rule that searches
    the action text itself finds neither word and says "experience". *)
Lemma section_label_search_is_on_lower_case :
  section (planItem improve_summary) = "summary"
  /\ spec_section improve_summary = "experience".
Proof. split; reflexivity. Qed.

Lemma planSection_cases (p : PlanItem) :
  (category p = Keywords -> planSection p = "skills")
  /\ (category p <> Keywords ->
      mentions (action p) "summary" \/ mentions (action p) "objective" ->
      planSection p = "summary")
  /\ (category p = Content ->
      ~ mentions (action p) "summary" -> ~ mentions (action p) "objective" ->
      planSection p = "experience")
  /\ (category p = Formatting ->
      ~ mentions (action p) "summary" -> ~ mentions (action p) "objective" ->
      planSection p = "document").
Proof.
  unfold planSection.
  pose proof (includes_lower_mentions (action p) "summary") as Hs.
  pose proof (includes_lower_mentions (action p) "objective") as Ho.
  destruct (Js.includes (Js.toLowerCase (action p)) "summary");
    destruct (Js.includes (Js.toLowerCase (action p)) "objective");
    destruct (category p); simpl; split_and!; try done;
    intuition congruence.
Qed.

(** C5, amended.  The item derived from the [i]-th plan entry stands
    after the keyword item (if any) and the formatting items, and its
    section label is chosen in this order: category Keywords gives
    "skills"; otherwise, if the action text contains "summary" or
    "objective" in any mix of upper and lower case, "summary"; otherwise
    category Content gives "experience"; every other entry gives
    "document". *)
Theorem plan_section_label (data : AnalysisResult) (i : nat) (p : PlanItem) :
  improvementPlan data !! i = Some p ->
  exists item,
    derivedItems data
      !! ((match missingKeywords data with [] => 0 | _ :: _ => 1 end)
          + length (formattingIssues data) + i) = Some item
    /\ title item = action p
    /\ (category p = Keywords -> section item = "skills")
    /\ (category p <> Keywords ->
        mentions (action p) "summary" \/ mentions (action p) "objective" ->
        section item = "summary")
    /\ (category p = Content ->
        ~ mentions (action p) "summary" -> ~ mentions (action p) "objective" ->
        section item = "experience")
    /\ (category p = Formatting ->
        ~ mentions (action p) "summary" -> ~ mentions (action p) "objective" ->
        section item = "document").
Proof.
  intros Hi. exists (planItem p). split; [|split; [done|]].
  - rewrite derivedItems_parts, app_assoc.
    rewrite lookup_app_r; rewrite length_app, length_map.
    + replace (length (keywordsPart data)) with
        (match missingKeywords data with [] => 0 | _ :: _ => 1 end)
        by (unfold keywordsPart; by destruct (missingKeywords data)).
      replace (_ + _ + i - (_ + _)) with i by lia.
      by rewrite list_lookup_fmap, Hi.
    + unfold keywordsPart. destruct (missingKeywords data); simpl; lia.
  - apply planSection_cases.
Qed.

Lemma plan_section_label_witness :
  exists item,
    derivedItems sample !! 1 = Some item
    /\ title item = "Add cloud tooling"
    /\ section item = "skills".
Proof.
  destruct (plan_section_label sample 0 _ eq_refl)
    as (item & Hitem & Ht & Hk & _).
  exists item. split_and!; [exact Hitem|exact Ht|by apply Hk].
Defined.

End DashboardFacts.

(** ** The analysis client *)

Section GeminiFacts.
Import Json.
Import GeminiService.
Import Vocabulary.
Import Samples.

Lemma falsy_some (key : string) :
  key <> EmptyString -> falsy (Some key) = false.
Proof. by destruct key. Qed.

Lemma without_key (env : gmap string string) (ai : string -> Service)
    (base64Pdf : string) :
  falsy (env !! "VITE_API_KEY") = true ->
  analyzeResumeWithGemini env ai base64Pdf = mkRun [] (inl ConfigurationError).
Proof. intros H. unfold analyzeResumeWithGemini. by rewrite H. Qed.

Lemma with_key_failure (env : gmap string string) (ai : string -> Service)
    (base64Pdf key : string) (e : Js.thrown) :
  env !! "VITE_API_KEY" = Some key -> key <> EmptyString ->
  ai key (request base64Pdf) = inl e ->
  analyzeResumeWithGemini env ai base64Pdf
  = mkRun [request base64Pdf] (inl e).
Proof.
  intros Hk Hne Hai. unfold analyzeResumeWithGemini.
  rewrite Hk, (falsy_some _ Hne). simpl.
  unfold try_catch, mbind, Run_bind, bind, generateContent. simpl.
  by rewrite Hai.
Qed.

Lemma with_key_no_text (env : gmap string string) (ai : string -> Service)
    (base64Pdf key : string) (resp : GenerateContentResponse) :
  env !! "VITE_API_KEY" = Some key -> key <> EmptyString ->
  ai key (request base64Pdf) = inr resp ->
  falsy (text resp) = true ->
  analyzeResumeWithGemini env ai base64Pdf
  = mkRun [request base64Pdf] (inl EmptyResponseError).
Proof.
  intros Hk Hne Hai Ht. unfold analyzeResumeWithGemini.
  rewrite Hk, (falsy_some _ Hne). simpl.
  unfold try_catch, mbind, Run_bind, bind, generateContent. simpl.
  rewrite Hai, Ht. simpl. done.
Qed.

Lemma with_key_text (env : gmap string string) (ai : string -> Service)
    (base64Pdf key : string) (resp : GenerateContentResponse) (t : string) :
  env !! "VITE_API_KEY" = Some key -> key <> EmptyString ->
  ai key (request base64Pdf) = inr resp ->
  text resp = Some t -> t <> EmptyString ->
  analyzeResumeWithGemini env ai base64Pdf
  = mkRun [request base64Pdf] (Json.parse t).
Proof.
  intros Hk Hne Hai Ht Htne. unfold analyzeResumeWithGemini.
  rewrite Hk, (falsy_some _ Hne). simpl.
  unfold try_catch, mbind, Run_bind, bind, generateContent. simpl.
  rewrite Hai, Ht, (falsy_some _ Htne). simpl.
  destruct (Json.parse t); done.
Qed.

Lemma satisfies_required (v : json) :
  satisfies ANALYSIS_SCHEMA v = true -> required_present v.
Proof.
  unfold required_present. destruct v; try done.
  intros H. apply andb_true_iff in H as [H _].
  simpl required_of. rewrite forallb_forall in H.
  apply Forall_forall. intros k Hk. apply H. by apply list_elem_of_In.
Qed.

End GeminiFacts.

(** ** The state of the application *)

Section AppFacts.
Import Types.
Import Json.
Import App.
Import Vocabulary.
Import Samples.

Variable env : gmap string string.
Variable ai : string -> GeminiService.Service.







Lemma upload_keeps (reader_starts : bool) (effects : list FileUpload.Effect)
    (sys : System) :
  status (ui sys) = idle -> result_matches (ui sys) ->
  length (FileUpload.selected effects) <= 1 ->
  result_matches (ui (upload reader_starts effects sys)).
Proof.
  unfold upload. revert sys.
  induction effects as [|e effects IH]; intros sys Hs Hm Hlen; [done|].
  simpl. destruct e; try (apply IH; done).
  simpl in Hlen.
  assert (Hnone : FileUpload.selected effects = [])
    by (destruct (FileUpload.selected effects); [done|simpl in Hlen; lia]).
  assert (Hfold : forall sys0,
    fold_left
      (fun acc e => match e with
                    | FileUpload.onFileSelect file =>
                        handleFileSelect reader_starts file acc
                    | _ => acc
                    end) effects sys0 = sys0).
  { clear -Hnone. induction effects as [|e effects IH]; [done|].
    intros sys0. destruct e; simpl in *; try (apply IH; done). done. }
  rewrite Hfold. unfold result_matches in *. rewrite Hs in Hm.
  unfold handleFileSelect. destruct reader_starts; simpl; done.
Qed.

Lemma handlers_select_at_most_one (files : option (list FileUpload.File)) :
  length (FileUpload.selected (FileUpload.handleDrop false files)) <= 1
  /\ length (FileUpload.selected (FileUpload.handleInputChange files)) <= 1.
Proof.
  unfold FileUpload.handleDrop, FileUpload.handleInputChange.
  destruct files as [[|f fs]|]; simpl; try lia.
  destruct (Js.str_eq _ _); simpl; lia.
Qed.

Lemma step_keeps_result_matches (sys sys' : System) (ev : Event) :
  result_matches (ui sys) -> step env ai sys ev = Some sys' ->
  result_matches (ui sys').
Proof.
  intros Hm Hstep. destruct ev; simpl in Hstep.
  - destruct (status (ui sys)) eqn:Hs; try done. injection Hstep as <-.
    apply upload_keeps; [done|done|apply handlers_select_at_most_one].
  - destruct (status (ui sys)) eqn:Hs; try done. injection Hstep as <-.
    apply upload_keeps; [done|done|apply handlers_select_at_most_one].
  - destruct (attempts sys !! i) as [[]|]; try done.
    by injection Hstep as <-.
  - destruct (attempts sys !! i) as [[]|]; try done.
    by injection Hstep as <-.
  - destruct (attempts sys !! i) as [[]|]; try done.
    injection Hstep as <-. simpl.
    unfold result_matches in *.
    destruct outcome; simpl; unfold call_rejected, call_resolved;
      destruct (status (ui sys)) eqn:Hs; simpl; rewrite ?Hs; done.
  - destruct (status (ui sys)); try done. by injection Hstep as <-.
  - destruct (status (ui sys)); try done. by injection Hstep as <-.
  - destruct (status (ui sys)), (result (ui sys)); try done;
      by injection Hstep as <-.
Qed.

(** In every reachable state: no result is held while idle or
    analyzing, and one is held in the state success. *)
Lemma reachable_result_matches (sys : System) :
  reachable env ai sys -> result_matches (ui sys).
Proof.
  intros [evs Hrun].
  assert (G : forall evs s0, result_matches (ui s0) ->
                run env ai s0 evs = Some sys -> result_matches (ui sys)).
  { clear. induction evs as [|ev evs IH]; intros s0 Hm Hrun; simpl in Hrun.
    - by injection Hrun as <-.
    - destruct (step env ai s0 ev) as [s1|] eqn:E; [|done].
      eapply IH; [|done]. by eapply step_keeps_result_matches. }
  by apply (G evs boot).
Qed.

End AppFacts.


(** ** The parser on sample texts *)

Section ParserExamples.
Import Json.
Import GeminiService.
Import Samples.

Example sample_text_satisfies_schema :
  exists v, Json.parse sample_text = inr v
            /\ satisfies ANALYSIS_SCHEMA v = true.
Proof. eexists. split; vm_compute; reflexivity. Qed.

Example parse_rejects_trailing_comma :
  Json.parse (dq "{'atsScore': 72,}") = inl Json.SyntaxError.
Proof. vm_compute. reflexivity. Qed.

Example parse_keeps_last_duplicate :
  Json.parse (dq "{'a': 1, 'b': [true, null], 'a': 'xA'}")
  = inr (JObject [("a", JString "xA");
                  ("b", JArray [JBool true; JNull])]).
Proof. vm_compute. reflexivity. Qed.

End ParserExamples.

(** ** The analysis client and its response *)

Section ClientClaims.
Import Json.
Import GeminiService.
Import Vocabulary.
Import Samples.

(** C1, as stated, fails: the text of an empty object is well-formed
    JSON, has none of the required members, and is what the analysis
    returns. *)
Lemma payload_without_fields_is_returned :
  analyzeResumeWithGemini sample_env (replies (Some "{}")) "JVBERi0="
  = mkRun [request "JVBERi0="] (inr (JObject []))
  /\ has_key (JObject []) "atsScore" = false
  /\ ~ required_present (JObject []).
Proof.
  split_and!.
  - vm_compute. reflexivity.
  - reflexivity.
  - intros H. unfold required_present in H. simpl in H.
    by apply Forall_cons in H as [H _].
Qed.

(** C1, amended.  When the service returns a text, the analysis returns
    what [JSON.parse] makes of it and checks no shape: a text that is not
    JSON is rejected with the error of the parser; a text that parses is
    returned as the result, so a payload that satisfies the result schema
    is returned with every required member present (and a well-formed
    payload that lacks members is returned as well). *)
Theorem response_text_is_parsed_unchecked
    (env : gmap string string) (ai : string -> Service)
    (base64Pdf key t : string) (resp : GenerateContentResponse) :
  env !! "VITE_API_KEY" = Some key -> key <> EmptyString ->
  ai key (request base64Pdf) = inr resp ->
  text resp = Some t -> t <> EmptyString ->
  settled (analyzeResumeWithGemini env ai base64Pdf) = Json.parse t
  /\ (Json.parse t = inl MalformedResponseError ->
      settled (analyzeResumeWithGemini env ai base64Pdf)
      = inl MalformedResponseError)
  /\ (forall v, Json.parse t = inr v ->
                settled (analyzeResumeWithGemini env ai base64Pdf) = inr v)
  /\ (forall v, Json.parse t = inr v -> satisfies ANALYSIS_SCHEMA v = true ->
                settled (analyzeResumeWithGemini env ai base64Pdf) = inr v
                /\ required_present v).
Proof.
  intros Hk Hne Hai Ht Htne.
  rewrite (with_key_text env ai base64Pdf key resp t Hk Hne Hai Ht Htne).
  simpl. split_and!; try done.
  intros v Hv Hs. split; [done|]. by apply satisfies_required.
Qed.

Lemma response_text_is_parsed_unchecked_witness :
  exists v,
    settled (analyzeResumeWithGemini sample_env (replies (Some sample_text))
                                     "JVBERi0=") = inr v
    /\ required_present v.
Proof.
  destruct (response_text_is_parsed_unchecked
              sample_env (replies (Some sample_text)) "JVBERi0=" "test-key"
              sample_text {| text := Some sample_text |})
    as (_ & _ & _ & H); [reflexivity|done|reflexivity|reflexivity|done|].
  destruct sample_text_satisfies_schema as (v & Hv & Hs).
  exists v. by apply H.
Defined.

End ClientClaims.

(** ** The application as a whole *)

Section ApplicationClaims.
Import Types.
Import Json.
Import GeminiService.
Import App.
Import Vocabulary.
Import Samples.

(** C7.  Without a credential ([VITE_API_KEY] unset or empty) the
    analysis fails with the configuration error and has issued no
    request; with one, a missing or empty response text makes it fail
    with the empty-response error, and a failure thrown by the call to
    the service is what the analysis fails with, unchanged.  Without a
    credential every attempt of the application ends in the state
    error: whatever file was read, once the call has settled during
    [analyzing] the state is error with the message of the configuration
    error, and nothing was sent. *)
Theorem analysis_failures
    (env : gmap string string) (ai : string -> Service) (base64Pdf : string) :
  (falsy (env !! "VITE_API_KEY") = true ->
   analyzeResumeWithGemini env ai base64Pdf = mkRun [] (inl ConfigurationError))
  /\ (forall key resp,
        env !! "VITE_API_KEY" = Some key -> key <> EmptyString ->
        ai key (request base64Pdf) = inr resp -> falsy (text resp) = true ->
        settled (analyzeResumeWithGemini env ai base64Pdf)
        = inl EmptyResponseError)
  /\ (forall key e,
        env !! "VITE_API_KEY" = Some key -> key <> EmptyString ->
        ai key (request base64Pdf) = inl e ->
        settled (analyzeResumeWithGemini env ai base64Pdf) = inl e)
  /\ (falsy (env !! "VITE_API_KEY") = true ->
      forall sys i,
        attempts sys !! i = Some Reading -> status (ui sys) = analyzing ->
        exists sys',
          run env ai sys [ReaderLoad i base64Pdf; CallSettles i] = Some sys'
          /\ status (ui sys') = error
          /\ errorMsg (ui sys')
             = Some "API Key is missing. Please check your environment configuration."
          /\ result (ui sys') = result (ui sys)
          /\ sent sys' = sent sys).
Proof.
  split_and!.
  - apply without_key.
  - intros key resp Hk Hne Hai Ht.
    by rewrite (with_key_no_text env ai base64Pdf key resp Hk Hne Hai Ht).
  - intros key e Hk Hne Hai.
    by rewrite (with_key_failure env ai base64Pdf key e Hk Hne Hai).
  - intros Hf sys i Hi Hs. simpl. rewrite Hi.
    rewrite (without_key env ai base64Pdf Hf). simpl.
    rewrite list_lookup_insert_eq by (by eapply lookup_lt_Some).
    eexists. split; [reflexivity|]. simpl.
    unfold call_rejected. rewrite Hs. simpl.
    split_and!; try done. by rewrite app_nil_r.
Qed.

(** An attempt without the credential, and one whose call fails. *)
Lemma analysis_failures_witness :
  analyzeResumeWithGemini ∅ (replies (Some sample_text)) "JVBERi0="
  = mkRun [] (inl ConfigurationError)
  /\ settled (analyzeResumeWithGemini sample_env (replies None) "JVBERi0=")
     = inl EmptyResponseError
  /\ settled (analyzeResumeWithGemini sample_env
                (fails (Js.ErrorObject "ApiError" "503 Service Unavailable"))
                "JVBERi0=")
     = inl (Js.ErrorObject "ApiError" "503 Service Unavailable").
Proof.
  split_and!.
  - apply (analysis_failures ∅ (replies (Some sample_text)) "JVBERi0=").
    reflexivity.
  - apply (analysis_failures sample_env (replies None) "JVBERi0=")
      with (key := "test-key") (resp := {| text := None |});
      [reflexivity|done|reflexivity|reflexivity].
  - apply (analysis_failures sample_env
             (fails (Js.ErrorObject "ApiError" "503 Service Unavailable"))
             "JVBERi0=")
      with (key := "test-key"); [reflexivity|done|reflexivity].
Defined.

(** The README asks for the key under the name [VITE_GEMINI_API_KEY];
    the code reads [VITE_API_KEY], so an environment set up by the README
    counts as one without a credential. *)
Remark key_under_documented_name_is_not_read :
  analyzeResumeWithGemini {[ "VITE_GEMINI_API_KEY" := "test-key" ]}
    (replies (Some sample_text)) "JVBERi0="
  = mkRun [] (inl ConfigurationError).
Proof. apply without_key. reflexivity. Qed.




(** The same run with the shortest reply, up to the end: the response
    of the cancelled attempt is taken for the answer to the new one. *)
Remark response_of_cancelled_attempt_after_new_selection :
  exists sys',
    run sample_env (replies (Some "{}")) boot
      [InputChange (Some [a_pdf]) true; ReaderLoad 0 "QUFB"; ClickCancel;
       InputChange (Some [b_pdf]) true; CallSettles 0] = Some sys'
    /\ status (ui sys') = success
    /\ result (ui sys') = Some (JObject [])
    /\ attempts sys' = [Finished; Reading].
Proof. eexists. split; [vm_compute; reflexivity|]. by vm_compute. Qed.

Lemma selected_is_pdf_drop (disabled : bool)
    (files : option (list FileUpload.File)) (f : FileUpload.File) :
  f ∈ FileUpload.selected (FileUpload.handleDrop disabled files) ->
  FileUpload.type f = "application/pdf".
Proof.
  unfold FileUpload.handleDrop.
  destruct disabled, files as [[|file rest]|]; simpl;
    try (intros H; by apply elem_of_nil in H).
  destruct (Js.str_eq (FileUpload.type file) "application/pdf") eqn:E; simpl.
  - intros H. apply list_elem_of_singleton in H as ->.
    by apply String.eqb_eq.
  - intros H; by apply elem_of_nil in H.
Qed.

Lemma selected_is_pdf_input
    (files : option (list FileUpload.File)) (f : FileUpload.File) :
  f ∈ FileUpload.selected (FileUpload.handleInputChange files) ->
  FileUpload.type f = "application/pdf".
Proof.
  unfold FileUpload.handleInputChange.
  destruct files as [[|file rest]|]; simpl;
    try (intros H; by apply elem_of_nil in H).
  destruct (Js.str_eq (FileUpload.type file) "application/pdf") eqn:E; simpl.
  - intros H. apply list_elem_of_singleton in H as ->.
    by apply String.eqb_eq.
  - intros H; by apply elem_of_nil in H.
Qed.

Lemma not_pdf (file : FileUpload.File) :
  FileUpload.type file <> "application/pdf" ->
  Js.str_eq (FileUpload.type file) "application/pdf" = false.
Proof. intros H. by apply String.eqb_neq. Qed.

(** C8.  The callback [onFileSelect] is only ever called with a file
    whose MIME type is application/pdf, by the drop handler and by the
    input handler alike.  For a first file of another type the handler
    shows the alert and does not call it, and in the application the
    event changes nothing: the status stays idle, no attempt starts and
    no request is sent. *)
Theorem non_pdf_is_rejected_at_upload
    (env : gmap string string) (ai : string -> Service) :
  (forall disabled files f,
      f ∈ FileUpload.selected (FileUpload.handleDrop disabled files) ->
      FileUpload.type f = "application/pdf")
  /\ (forall files f,
      f ∈ FileUpload.selected (FileUpload.handleInputChange files) ->
      FileUpload.type f = "application/pdf")
  /\ (forall file rest,
      FileUpload.type file <> "application/pdf" ->
      FileUpload.handleDrop false (Some (file :: rest))
      = [FileUpload.preventDefault; FileUpload.setIsDragging false;
         FileUpload.alert "Please upload a valid PDF file."]
      /\ FileUpload.handleInputChange (Some (file :: rest))
         = [FileUpload.alert "Please upload a valid PDF file."])
  /\ (forall sys file rest reader_starts,
      FileUpload.type file <> "application/pdf" ->
      status (ui sys) = idle ->
      step env ai sys (Drop (Some (file :: rest)) reader_starts) = Some sys
      /\ step env ai sys (InputChange (Some (file :: rest)) reader_starts)
         = Some sys).
Proof.
  split_and!.
  - apply selected_is_pdf_drop.
  - apply selected_is_pdf_input.
  - intros file rest H.
    unfold FileUpload.handleDrop, FileUpload.handleInputChange.
    by rewrite (not_pdf file H).
  - intros sys file rest reader_starts H Hs. simpl. rewrite Hs.
    unfold FileUpload.handleDrop, FileUpload.handleInputChange.
    rewrite (not_pdf file H). simpl. by destruct sys.
Qed.

(** A text file is dropped on the page that has just been opened. *)
Lemma non_pdf_is_rejected_at_upload_witness :
  run sample_env (replies (Some sample_text)) boot
    [Drop (Some [notes_txt]) true] = Some boot.
Proof.
  pose proof (non_pdf_is_rejected_at_upload sample_env
                (replies (Some sample_text))) as (_ & _ & _ & H).
  destruct (H boot notes_txt [] true) as [Hd _]; [done|reflexivity|].
  cbn [run]. by rewrite Hd.
Defined.

(** C9 on the code: the size of a file is never read.  A PDF of 6 MiB,
    above the limit of 5MB that the page announces, is handed to the
    callback by both handlers, and the application sends it to the
    service. *)
Theorem oversized_pdf_is_submitted :
  (5 * 1024 * 1024 < FileUpload.size big_pdf)%N
  /\ FileUpload.hint = "PDF files only (Max 5MB)"
  /\ FileUpload.handleInputChange (Some [big_pdf])
     = [FileUpload.onFileSelect big_pdf]
  /\ FileUpload.handleDrop false (Some [big_pdf])
     = [FileUpload.preventDefault; FileUpload.setIsDragging false;
        FileUpload.onFileSelect big_pdf]
  /\ exists sys',
       run sample_env (replies (Some sample_text)) boot
         [InputChange (Some [big_pdf]) true; ReaderLoad 0 "JVBERi0="]
       = Some sys'
       /\ status (ui sys') = analyzing
       /\ sent sys' = [request "JVBERi0="].
Proof.
  split_and!; try reflexivity.
  eexists. split; [vm_compute; reflexivity|]. by vm_compute.
Qed.

(** C10 on the code: [reader.onerror] sets the status without looking
    at it and leaves the result alone.  The reader of a cancelled attempt
    fails after a later attempt has succeeded: the status becomes error
    while the result of the later attempt is still held. *)
Theorem late_read_error_keeps_result :
  exists sys',
    run sample_env (replies (Some "{}")) boot
      [InputChange (Some [big_pdf]) true; ClickCancel;
       InputChange (Some [b_pdf]) true; ReaderLoad 1 "QkJC"; CallSettles 1;
       ReaderError 0] = Some sys'
    /\ status (ui sys') = error
    /\ result (ui sys') = Some (JObject [])
    /\ errorMsg (ui sys') = Some "Failed to read file."
    /\ ~ (result (ui sys') <> None <-> status (ui sys') = success).
Proof.
  eexists. split; [vm_compute; reflexivity|]. simpl.
  split_and!; try done. intros [H _]. by specialize (H ltac:(done)).
Qed.

End ApplicationClaims.

(** ** Numbers and the score displays *)

Section ScoreFacts.
Import ScoreChart.
Import DashboardView.

Lemma ge_true (a b : Q) : Num.ge a b = true <-> (b <= a)%Q.
Proof. unfold Num.ge. apply Qle_bool_iff. Qed.

Lemma ge_false (a b : Q) : Num.ge a b = false <-> (a < b)%Q.
Proof.
  unfold Num.ge. pose proof (Qle_bool_iff b a) as H.
  destruct (Qle_bool b a); split; intros; try done.
  - exfalso. apply (Qlt_not_le a b); tauto.
  - apply Qnot_le_lt. intros Hle. apply H in Hle. done.
Qed.

Lemma lt_true (a b : Q) : Num.lt a b = true <-> (a < b)%Q.
Proof.
  unfold Num.lt. rewrite negb_true_iff. apply (ge_false a b).
Qed.

Lemma lt_false (a b : Q) : Num.lt a b = false <-> (b <= a)%Q.
Proof.
  unfold Num.lt. rewrite negb_false_iff. apply (ge_true a b).
Qed.

Lemma gt_true (a b : Q) : Num.gt a b = true <-> (b < a)%Q.
Proof. apply (lt_true b a). Qed.

Lemma gt_false (a b : Q) : Num.gt a b = false <-> (a <= b)%Q.
Proof. apply (lt_false b a). Qed.

(** X22.  The gauge of the score chart (its colour and the sentence under
    it) and the score card of the dashboard (its label and its bar) are
    each chosen by their own comparisons; for every score the four are of
    the same tier:
    from 80 on the best one, from 60 up to 80 the middle one, below 60 the
    worst one. *)
Theorem score_displays_agree (score : Q) :
  ((80 <= score)%Q ->
     getScoreColor score = BRAND_MEDIUM_BLUE
     /\ scoreSentence score = "Excellent! Your resume is highly optimized."
     /\ atsLabel score = "Excellent"
     /\ atsBarClass score = "bg-green-500")
  /\ ((60 <= score)%Q -> (score < 80)%Q ->
     getScoreColor score = BRAND_LIGHT_BLUE
     /\ scoreSentence score = "Good start, but needs refinement."
     /\ atsLabel score = "Good Start"
     /\ atsBarClass score = "bg-brand-lightblue")
  /\ ((score < 60)%Q ->
     getScoreColor score = BRAND_RED
     /\ scoreSentence score = "Significant improvements recommended."
     /\ atsLabel score = "Needs Work"
     /\ atsBarClass score = "bg-brand-red").
Proof.
  unfold getScoreColor, scoreSentence, atsLabel, atsBarClass.
  split_and!.
  - intros H. apply (ge_true score 80) in H. by rewrite H.
  - intros H1 H2. apply (ge_true score 60) in H1.
    apply (ge_false score 80) in H2. by rewrite H1, H2.
  - intros H. assert (H' : (score < 80)%Q) by lra.
    apply (ge_false score 60) in H. apply (ge_false score 80) in H'.
    by rewrite H, H'.
Qed.

(** X19.  On the keyword card the icon turns green from 80 on, while the
    text turns to "Good keyword coverage." from 70 on: a green icon always
    comes with the good text, and the red icon stands beside the good text
    exactly for the scores from 70 up to 80.  On the parsability card icon
    and text change together, at 90. *)
Theorem keyword_card_icon_and_text (score : Q) :
  (keywordIconClass score = "bg-green-100 text-green-600" ->
   keywordText score = "Good keyword coverage."
   /\ keywordTextClass score = "text-brand-darkgrey")
  /\ (keywordIconClass score = "bg-brand-red/10 text-brand-red"
      /\ keywordText score = "Good keyword coverage."
      <-> (70 <= score)%Q /\ (score < 80)%Q)
  /\ (parsabilityIconClass score = "bg-green-100 text-green-600"
      <-> parsabilityText score = "Format is machine-readable.").
Proof.
  unfold keywordIconClass, keywordText, keywordTextClass,
    parsabilityIconClass, parsabilityText.
  split_and!.
  - destruct (Num.ge score 80) eqn:E; [|done]. intros _.
    apply (ge_true score 80) in E.
    assert (H : Num.lt score 70 = false)
      by (apply (lt_false score 70); lra).
    by rewrite H.
  - destruct (Num.ge score 80) eqn:E, (Num.lt score 70) eqn:L;
      split; try (by intros [? ?]).
    + intros [H1 H2]. apply (ge_true score 80) in E. lra.
    + intros [H1 H2]. apply (ge_true score 80) in E. lra.
    + intros [H1 H2]. apply (lt_true score 70) in L. lra.
    + intros _. split;
        [by apply (lt_false score 70)|by apply (ge_false score 80)].
  - destruct (Num.ge score 90); split; done.
Qed.

End ScoreFacts.

(** ** The loading screen *)

Section LoadingFacts.
Import LoadingScreen.

Lemma insight_in_range (cur : Z) (ev : InsightEvent) :
  (0 <= cur < 4)%Z -> (0 <= onInsightEvent cur ev < 4)%Z.
Proof.
  intros H. unfold onInsightEvent, nextInsight, previousInsight, Num.rem.
  change INSIGHTS_length with 4%Z.
  destruct ev; rewrite Z.rem_mod_nonneg by lia;
    apply Z.mod_pos_bound; lia.
Qed.

Lemma insight_defined (cur : Z) :
  (0 <= cur < 4)%Z -> is_Some (insightAt cur).
Proof.
  intros H. unfold insightAt.
  destruct (cur <? 0)%Z eqn:E; [lia|].
  apply lookup_lt_is_Some. simpl. lia.
Qed.

(** X23.  Whatever the timer and the two arrows do, starting from the
    first insight, the index of the current insight stays one of the four
    insights, so the card always has a title and a text to show; the left
    arrow undoes the right arrow and the timer, and the other way round,
    and four steps to the right come back to where they started. *)
Theorem insight_rotation (evs : list InsightEvent) :
  let cur := fold_left onInsightEvent evs 0%Z in
  (0 <= cur < 4)%Z
  /\ is_Some (insightAt cur)
  /\ previousInsight (nextInsight cur) = cur
  /\ nextInsight (previousInsight cur) = cur
  /\ nextInsight (nextInsight (nextInsight (nextInsight cur))) = cur.
Proof.
  assert (H : (0 <= fold_left onInsightEvent evs 0 < 4)%Z).
  { assert (G : forall c, (0 <= c < 4)%Z ->
                          (0 <= fold_left onInsightEvent evs c < 4)%Z).
    { induction evs as [|ev evs IH]; intros c Hc; [done|].
      simpl. apply IH. by apply insight_in_range. }
    apply G. lia. }
  simpl. split; [done|]. split; [by apply insight_defined|].
  generalize dependent (fold_left onInsightEvent evs 0%Z). intros cur Hc.
  unfold nextInsight, previousInsight, Num.rem.
  change INSIGHTS_length with 4%Z.
  assert (Hcases : (cur = 0 \/ cur = 1 \/ cur = 2 \/ cur = 3)%Z) by lia.
  destruct Hcases as [->|[->|[->| ->]]]; done.
Qed.

Lemma threshold_step (i j : Z) :
  (i < j)%Z -> (inject_Z (i * 25) + 25 <= inject_Z (j * 25))%Q.
Proof.
  intros H. change 25%Q with (inject_Z 25). rewrite <- inject_Z_plus.
  rewrite <- Zle_Qle. lia.
Qed.

(** X24.  The steps of the grid are taken in order: of two steps, the
    later one is never further than the earlier one (if the later one is
    complete so is the earlier one, and if the earlier one is still
    pending so is the later one), and while a step is active every later
    step is pending, so at most one step is active.  As long as the
    progress is at most 100 the last step is never shown complete. *)
Theorem steps_in_order (progress : Q) (i j : Z) :
  (0 <= i)%Z -> (i < j)%Z ->
  (stepStatus progress j = completed -> stepStatus progress i = completed)
  /\ (stepStatus progress i = pending -> stepStatus progress j = pending)
  /\ (stepStatus progress i = active -> stepStatus progress j = pending)
  /\ ((progress <= 100)%Q -> stepStatus progress 3 <> completed).
Proof.
  intros Hi Hij. pose proof (threshold_step i j Hij) as Ht.
  unfold stepStatus, getStepStatus.
  replace (j =? 0)%Z with false by lia.
  split_and!.
  - destruct (i =? 0)%Z; [done|].
    destruct (Num.gt progress (inject_Z (j * 25) + 25)) eqn:Ej;
      [|by destruct (Num.gt progress (inject_Z (j * 25)))].
    intros _. apply (gt_true progress) in Ej.
    assert (H : Num.gt progress (inject_Z (i * 25) + 25) = true)
      by (apply (gt_true progress); lra).
    by rewrite H.
  - destruct (i =? 0)%Z; [done|].
    destruct (Num.gt progress (inject_Z (i * 25) + 25)) eqn:Ei; [done|].
    destruct (Num.gt progress (inject_Z (i * 25))) eqn:Ei'; [done|].
    intros _. apply (gt_false progress) in Ei'.
    assert (H1 : Num.gt progress (inject_Z (j * 25) + 25) = false)
      by (apply (gt_false progress); lra).
    assert (H2 : Num.gt progress (inject_Z (j * 25)) = false)
      by (apply (gt_false progress); lra).
    by rewrite H1, H2.
  - destruct (i =? 0)%Z; [done|].
    destruct (Num.gt progress (inject_Z (i * 25) + 25)) eqn:Ei; [done|].
    intros _. apply (gt_false progress) in Ei.
    assert (H1 : Num.gt progress (inject_Z (j * 25) + 25) = false)
      by (apply (gt_false progress); lra).
    assert (H2 : Num.gt progress (inject_Z (j * 25)) = false)
      by (apply (gt_false progress); lra).
    by rewrite H1, H2.
  - intros Hp. change (3 =? 0)%Z with false. cbv iota.
    assert (H : Num.gt progress (inject_Z (3 * 25) + 25) = false).
    { apply (gt_false progress).
      change (inject_Z (3 * 25) + 25)%Q with (75 + 25)%Q. lra. }
    rewrite H. by destruct (Num.gt progress (inject_Z (3 * 25))).
Qed.

Lemma steps_in_order_witness :
  stepStatus 45 1 = active /\ stepStatus 45 2 = pending.
Proof.
  split; [reflexivity|].
  apply (steps_in_order 45 1 2); [lia|lia|reflexivity].
Defined.

End LoadingFacts.

(** ** The dashboard: skills, cards, export *)

Section ViewFacts.
Import Types.
Import Dashboard.
Import DashboardView.
Import Vocabulary.

(** X18.  The preview lists the first fifteen skills, in their order, and
    counts the rest: the chips and the number after the plus sign add up
    to the number of skills; the "+n more" note is there exactly when some
    skill is not listed, and then n is at least one. *)
Theorem skills_shown_and_counted (data : AnalysisResult) :
  (shownSkills data `prefix_of` extractedSkills data)
  /\ length (shownSkills data) <= 15
  /\ length (shownSkills data) + default 0 (moreSkills data)
     = length (extractedSkills data)
  /\ (moreSkills data = None <-> shownSkills data = extractedSkills data)
  /\ (forall n, moreSkills data = Some n -> 1 <= n).
Proof.
  unfold shownSkills, moreSkills.
  pose proof (length_take (extractedSkills data) 15) as Hlen.
  split_and!.
  - apply prefix_take.
  - lia.
  - destruct (15 <? length (extractedSkills data))%nat eqn:E; simpl.
    + apply Nat.ltb_lt in E. lia.
    + apply Nat.ltb_ge in E. lia.
  - destruct (15 <? length (extractedSkills data))%nat eqn:E.
    + apply Nat.ltb_lt in E. split; [done|].
      intros H. rewrite H in Hlen. lia.
    + apply Nat.ltb_ge in E. split; [|done]. intros _.
      by apply take_ge.
  - intros n. destruct (15 <? length (extractedSkills data))%nat eqn:E; [|done].
    apply Nat.ltb_lt in E. intros [= <-]. lia.
Qed.

(** X16.  On every card the red border on the left goes with one of the
    two red icons and with no other: the red circle is the icon of
    priority High and carries the badge "High Impact", the red warning is
    the icon of a Formatting item of lower priority, the amber warning
    that of a Medium item of another category (badge "Medium Impact"), and
    the blue icon is left for Low items of another category (badge
    "Suggestion"). *)
Theorem card_border_icon_badge (item : FeedbackItem) :
  (hasAlert item = true <-> icon item = RedCircle \/ icon item = RedWarning)
  /\ (icon item = RedCircle
      <-> fi_priority item = High)
  /\ (icon item = RedCircle <-> badgeText item = "High Impact")
  /\ (icon item = RedWarning
      <-> fi_priority item <> High /\ fi_category item = Formatting)
  /\ (icon item = AmberWarning
      <-> fi_priority item = Medium /\ fi_category item <> Formatting)
  /\ (icon item = AmberWarning -> badgeText item = "Medium Impact")
  /\ (icon item = BlueInfo
      <-> fi_priority item = Low /\ fi_category item <> Formatting)
  /\ (icon item = BlueInfo -> badgeText item = "Suggestion").
Proof.
  unfold hasAlert, isHighImpact, isFormatting, icon, badgeText.
  destruct (fi_priority item), (fi_category item); simpl;
    split_and!; try done; try (split; try done; intuition congruence).
Qed.

Lemma derived_item_cases (data : AnalysisResult) (item : FeedbackItem) :
  item ∈ derivedItems data ->
  (missingKeywords data <> [] /\ item = missingKeywordsItem data)
  \/ (exists issue, issue ∈ formattingIssues data /\ item = formattingItem issue)
  \/ (exists p, p ∈ improvementPlan data /\ item = planItem p).
Proof.
  rewrite derivedItems_parts, !elem_of_app. intros [H|[H|H]].
  - left. unfold keywordsPart in H. destruct (missingKeywords data); [by apply elem_of_nil in H|].
    apply list_elem_of_singleton in H. done.
  - right; left. apply list_elem_of_fmap in H as (s & -> & Hs). eauto.
  - right; right. apply list_elem_of_fmap in H as (p & -> & Hp). eauto.
Qed.

(** X15.  How the cards of the three sources look.  The card of the
    missing keywords has the red circle, the badge "High Impact", the red
    border, and lists exactly the missing keywords, of which there is at
    least one.  The card of a formatting issue has the red warning, the
    badge "Medium Impact" and the red border.  Keywords are listed on no
    other card, and a benefit line is shown only on the card of a plan
    entry and only when the expected benefit is not the empty text. *)
Theorem cards_of_the_three_sources (data : AnalysisResult) (item : FeedbackItem) :
  item ∈ derivedItems data ->
  match type item with
  | missing_keywords =>
      icon item = RedCircle /\ badgeText item = "High Impact"
      /\ hasAlert item = true
      /\ keywordChips item = Some (missingKeywords data)
      /\ missingKeywords data <> []
      /\ benefitLine item = None
  | formatting =>
      icon item = RedWarning /\ badgeText item = "Medium Impact"
      /\ hasAlert item = true
      /\ keywordChips item = None /\ benefitLine item = None
  | plan =>
      keywordChips item = None
      /\ exists p, p ∈ improvementPlan data /\ item = planItem p
         /\ (benefitLine item = None <-> expectedBenefit p = EmptyString)
         /\ (expectedBenefit p <> EmptyString ->
             benefitLine item = Some (expectedBenefit p))
  end.
Proof.
  intros Hin.
  destruct (derived_item_cases data item Hin)
    as [[Hne ->]|[(issue & Hi & ->)|(p & Hp & ->)]]; simpl.
  - done.
  - done.
  - split; [done|]. exists p. split_and!; try done.
    + unfold benefitLine. simpl. by destruct (expectedBenefit p).
    + unfold benefitLine. simpl. by destruct (expectedBenefit p).
Qed.

Lemma cards_of_the_three_sources_witness :
  exists item,
    derivedItems Samples.sample !! 0 = Some item
    /\ keywordChips item = Some ["Kubernetes"; "Terraform"].
Proof.
  exists (missingKeywordsItem Samples.sample). split; [reflexivity|].
  pose proof (cards_of_the_three_sources Samples.sample
                (missingKeywordsItem Samples.sample)) as H.
  simpl in H. apply H.
  apply list_elem_of_lookup. by exists 0.
Defined.

Lemma all_length (data : AnalysisResult) :
  length (getFilteredFeedback data All) = tabBadge data All.
Proof.
  unfold getFilteredFeedback, tabBadge. simpl.
  rewrite derivedItems_parts, !length_app, !length_map, keywordsPart_length.
  unfold countContent, countKeywords, countFormatting.
  pose proof (plan_in_category data Content) as HC.
  pose proof (plan_in_category data Keywords) as HK.
  pose proof (plan_in_category data Formatting) as HF.
  simpl in HC, HK, HF. rewrite HC, HK, HF.
  pose proof (plan_three_categories (improvementPlan data)). lia.
Qed.

(** X17.  "No issues found in this category." is shown exactly when the
    badge of the active tab shows 0, for each of the four tabs. *)
Theorem empty_notice_iff_badge_zero (data : AnalysisResult) (tab : Tab) :
  emptyNotice (getFilteredFeedback data tab) = true <-> tabBadge data tab = 0.
Proof.
  unfold emptyNotice. rewrite Nat.eqb_eq.
  destruct tab.
  - by rewrite all_length.
  - change TabContent with (tab_of Content).
    by rewrite (shown_length data Content).
  - change TabKeywords with (tab_of Keywords).
    by rewrite (shown_length data Keywords).
  - change TabFormatting with (tab_of Formatting).
    by rewrite (shown_length data Formatting).
Qed.

End ViewFacts.

(** ** The export of the report *)

Section ExportFacts.
Import DashboardView.

Lemma replace_spaces_no_space (in_run : bool) (s : list N) :
  Forall (fun c => is_space c = false) (replace_spaces in_run s).
Proof.
  revert in_run; induction s as [|c s IH]; intros in_run; simpl; [done|].
  destruct (is_space c) eqn:E.
  - destruct in_run; [apply IH|]. constructor; [done|apply IH].
  - constructor; [done|apply IH].
Qed.

Lemma replace_spaces_id (s : list N) :
  Forall (fun c => is_space c = false) s -> replace_spaces false s = s.
Proof.
  induction 1 as [|c s Hc _ IH]; simpl; [done|]. by rewrite Hc, IH.
Qed.

Lemma replace_spaces_length (in_run : bool) (s : list N) :
  length (replace_spaces in_run s) <= length s.
Proof.
  revert in_run; induction s as [|c s IH]; intros in_run; simpl; [done|].
  destruct (is_space c), in_run; simpl;
    try (pose proof (IH true)); try (pose proof (IH false)); lia.
Qed.

Lemma replace_spaces_keeps (in_run : bool) (s : list N) :
  filter (fun c => is_space c = false /\ c <> underscore)
         (replace_spaces in_run s)
  = filter (fun c => is_space c = false /\ c <> underscore) s.
Proof.
  revert in_run; induction s as [|c s IH]; intros in_run; simpl; [done|].
  destruct (is_space c) eqn:E.
  - rewrite (filter_cons_False _ c) by (intros [? ?]; congruence).
    destruct in_run; [apply IH|].
    rewrite filter_cons_False by (intros [? ?]; done). apply IH.
  - rewrite !filter_cons. rewrite IH. done.
Qed.

Lemma replace_spaces_after (in_run : bool) (c : N) (s r : list N) :
  is_space c = false ->
  replace_spaces in_run (s ++ c :: r)
  = replace_spaces in_run (s ++ [c]) ++ replace_spaces false r.
Proof.
  intros Hc. revert in_run; induction s as [|d s IH]; intros in_run; simpl.
  - by rewrite Hc.
  - destruct (is_space d), in_run; simpl; by rewrite IH.
Qed.

Lemma replace_spaces_run (ws r : list N) (d : N) :
  ws <> [] -> Forall (fun c => is_space c = true) ws -> is_space d = false ->
  replace_spaces false (ws ++ d :: r)
  = underscore :: d :: replace_spaces false r.
Proof.
  intros Hne Hws Hd.
  assert (G : forall l, Forall (fun c => is_space c = true) l ->
             replace_spaces true (l ++ d :: r) = d :: replace_spaces false r).
  { induction 1 as [|c l Hc _ IH]; simpl; [by rewrite Hd|by rewrite Hc]. }
  destruct Hws as [|c ws Hc Hws]; [done|]. simpl. rewrite Hc. by rewrite G.
Qed.

(** X20.  The file name of the exported report is the candidate name
    with every run of white space replaced by one underscore, followed by
    "_Resume_Analysis.pdf": it holds no white space, a name without white
    space is kept as it is, the other characters stay in their order, and
    a run of white space between two other characters leaves exactly one
    underscore between them. *)
Theorem export_file_name (candidateName : list N) :
  Forall (fun c => is_space c = false) (exportFileName candidateName)
  /\ (code_units "_Resume_Analysis.pdf" `suffix_of` exportFileName candidateName)
  /\ length (exportFileName candidateName) <= length candidateName + 20
  /\ (Forall (fun c => is_space c = false) candidateName ->
      exportFileName candidateName
      = candidateName ++ code_units "_Resume_Analysis.pdf")
  /\ filter (fun c => is_space c = false /\ c <> underscore)
            (replace_spaces false candidateName)
     = filter (fun c => is_space c = false /\ c <> underscore) candidateName
  /\ (forall pre c ws d post,
        candidateName = pre ++ c :: ws ++ d :: post ->
        is_space c = false -> is_space d = false ->
        ws <> [] -> Forall (fun x => is_space x = true) ws ->
        replace_spaces false candidateName
        = replace_spaces false (pre ++ [c]) ++ underscore :: d
          :: replace_spaces false post).
Proof.
  unfold exportFileName. split_and!.
  - apply Forall_app. split; [apply replace_spaces_no_space|].
    by repeat constructor.
  - by eexists.
  - rewrite length_app. pose proof (replace_spaces_length false candidateName).
    change (length (code_units "_Resume_Analysis.pdf")) with 20. lia.
  - intros H. by rewrite replace_spaces_id.
  - apply replace_spaces_keeps.
  - intros pre c ws d post -> Hc Hd Hne Hws.
    rewrite (replace_spaces_after false c pre _ Hc).
    by rewrite (replace_spaces_run ws post d Hne Hws Hd).
Qed.

(** The name "Ada  Lovelace", with two spaces. *)
Example export_file_name_sample :
  exportFileName (code_units "Ada  Lovelace")
  = code_units "Ada_Lovelace_Resume_Analysis.pdf".
Proof. reflexivity. Qed.

(** X21.  Whatever happens during an export, the button is enabled
    again when it ends: the flag [isExporting] is set at the start and is
    false afterwards, also when the element to print is missing and when a
    step throws.  The file is saved only when the element was found and
    nothing threw, and then once, under the export file name; the user is
    alerted, once, exactly when something threw. *)
Theorem export_always_ends (candidateName : list N) (element before : bool)
    (throws : option ExportStep) :
  let effects := handleExportPDF candidateName element throws in
  isExporting_after before effects = false
  /\ head effects = Some (setIsExporting true)
  /\ saved effects
     = (if element
        then match throws with
             | None => [exportFileName candidateName]
             | Some _ => []
             end
        else [])
  /\ alerts effects
     = (if element
        then match throws with
             | None => []
             | Some _ => ["Failed to export PDF. Please try again."]
             end
        else []).
Proof.
  simpl. unfold handleExportPDF.
  destruct element; [destruct throws as [[]|]|]; simpl; done.
Qed.

End ExportFacts.

(** ** More on the analysis client *)

Section ClientFacts.
Import Json.
Import GeminiService.
Import Vocabulary.
Import Samples.

Lemma falsy_cases (s : option string) :
  (falsy s = true /\ (s = None \/ s = Some EmptyString))
  \/ (exists k, s = Some k /\ k <> EmptyString /\ falsy s = false).
Proof.
  destruct s as [[|c k]|]; simpl; [left|right|left]; eauto.
Qed.

Lemma requests_of_analysis
    (env : gmap string string) (ai : string -> Service) (base64Pdf : string) :
  (falsy (env !! "VITE_API_KEY") = true
   /\ requests (analyzeResumeWithGemini env ai base64Pdf) = [])
  \/ (falsy (env !! "VITE_API_KEY") = false
      /\ requests (analyzeResumeWithGemini env ai base64Pdf)
         = [request base64Pdf]).
Proof.
  destruct (falsy_cases (env !! "VITE_API_KEY"))
    as [[Hf _]|(key & Hk & Hne & Hf)].
  - left. by rewrite (without_key env ai base64Pdf Hf).
  - right. split; [done|].
    destruct (ai key (request base64Pdf)) as [e|resp] eqn:Hai.
    + by rewrite (with_key_failure env ai base64Pdf key e Hk Hne Hai).
    + destruct (falsy_cases (text resp)) as [[Ht _]|(t & Ht & Htne & _)].
      * by rewrite (with_key_no_text env ai base64Pdf key resp Hk Hne Hai Ht).
      * by rewrite (with_key_text env ai base64Pdf key resp t
                      Hk Hne Hai Ht Htne).
Qed.

(** X9.  One analysis issues at most one request, never a second one
    after a failure: none when the credential is missing, and otherwise
    exactly one, which carries the document as it was given, declared as
    application/pdf, together with the result schema. *)
Theorem one_request_per_analysis
    (env : gmap string string) (ai : string -> Service) (base64Pdf : string) :
  let r := analyzeResumeWithGemini env ai base64Pdf in
  length (requests r) <= 1
  /\ (requests r = [] <-> falsy (env !! "VITE_API_KEY") = true)
  /\ Forall (fun q => inlineData_data q = base64Pdf
                      /\ inlineData_mimeType q = "application/pdf"
                      /\ responseMimeType q = "application/json"
                      /\ responseSchema q = ANALYSIS_SCHEMA)
            (requests r).
Proof.
  simpl.
  destruct (requests_of_analysis env ai base64Pdf) as [[Hf ->]|[Hf ->]];
    rewrite Hf; simpl.
  - split_and!; [lia|done|done].
  - split_and!; [lia|done|]. by repeat constructor.
Qed.

(** X10.  The analysis returns a result only along one path: there is a
    non-empty credential, the service answered the request with a
    non-empty text, and the result is what that text parses to.  In every
    other case it fails. *)
Theorem result_only_from_response_text
    (env : gmap string string) (ai : string -> Service) (base64Pdf : string)
    (v : json) :
  settled (analyzeResumeWithGemini env ai base64Pdf) = inr v ->
  exists key resp t,
    env !! "VITE_API_KEY" = Some key /\ key <> EmptyString
    /\ ai key (request base64Pdf) = inr resp
    /\ text resp = Some t /\ t <> EmptyString
    /\ Json.parse t = inr v.
Proof.
  intros H.
  destruct (falsy_cases (env !! "VITE_API_KEY"))
    as [[Hf _]|(key & Hk & Hne & Hf)].
  - by rewrite (without_key env ai base64Pdf Hf) in H.
  - destruct (ai key (request base64Pdf)) as [e|resp] eqn:Hai.
    + by rewrite (with_key_failure env ai base64Pdf key e Hk Hne Hai) in H.
    + destruct (falsy_cases (text resp)) as [[Ht _]|(t & Ht & Htne & _)].
      * by rewrite (with_key_no_text env ai base64Pdf key resp Hk Hne Hai Ht)
          in H.
      * rewrite (with_key_text env ai base64Pdf key resp t Hk Hne Hai Ht Htne)
          in H. simpl in H. by exists key, resp, t.
Qed.

Lemma result_only_from_response_text_witness :
  exists key resp t,
    sample_env !! "VITE_API_KEY" = Some key /\ key <> EmptyString
    /\ replies (Some "{}") key (request "JVBERi0=") = inr resp
    /\ text resp = Some t /\ t <> EmptyString
    /\ Json.parse t = inr (JObject []).
Proof.
  apply (result_only_from_response_text sample_env (replies (Some "{}"))
           "JVBERi0=" (JObject [])).
  vm_compute. reflexivity.
Defined.

End ClientFacts.

(** ** The result schema and the types of the dashboard *)

Section SchemaFacts.
Import Json.
Import GeminiService.
Import Types.

Lemma satisfies_member (props : list (string * Schema)) (req : list string)
    (m : list (string * json)) (k : string) (sk : Schema) :
  satisfies (OBJECT props req) (JObject m) = true ->
  In k req -> In (k, sk) props ->
  exists x, get k m = Some x /\ satisfies sk x = true.
Proof.
  simpl. intros H Hk Hp. apply andb_true_iff in H as [Hreq Heach].
  rewrite forallb_forall in Hreq. specialize (Hreq k Hk).
  unfold has_key in Hreq.
  destruct (get k m) as [x|] eqn:E; [|done].
  exists x. split; [done|].
  clear Hreq Hk. induction props as [|[k' sk'] props IH]; [done|].
  apply andb_true_iff in Heach as [H1 H2].
  destruct Hp as [[= -> ->]|Hp].
  - by rewrite E in H1.
  - by apply IH.
Qed.

Lemma satisfies_property (props : list (string * Schema)) (req : list string)
    (m : list (string * json)) (k : string) (sk : Schema) :
  satisfies (OBJECT props req) (JObject m) = true ->
  In k req -> SchemaView.property k props = Some sk ->
  exists x, get k m = Some x /\ satisfies sk x = true.
Proof.
  intros H Hk Hp. apply (satisfies_member props req m k sk H Hk).
  clear H Hk. induction props as [|[k' sk'] props IH]; [done|].
  simpl in Hp. destruct (String.eqb k k') eqn:E.
  - apply String.eqb_eq in E as ->. injection Hp as ->. by left.
  - right. by apply IH.
Qed.

Lemma satisfies_array (it : Schema) (v : json) :
  satisfies (ARRAY it) v = true ->
  exists l, v = JArray l /\ Forall (fun x => satisfies it x = true) l.
Proof.
  destruct v; try done. simpl. intros H. eexists. split; [done|].
  rewrite forallb_forall in H. apply Forall_forall.
  intros x Hx. apply H. by apply list_elem_of_In.
Qed.

Lemma satisfies_string (v : json) :
  satisfies (STRING None) v = true -> exists s, v = JString s.
Proof. destruct v; try done. eauto. Qed.

Lemma satisfies_enum (allowed : list string) (v : json) :
  satisfies (STRING (Some allowed)) v = true ->
  exists s, v = JString s /\ In s allowed.
Proof.
  destruct v; try done. simpl. intros H.
  apply existsb_exists in H as (x & Hx & Heq).
  apply String.eqb_eq in Heq as ->. eauto.
Qed.

Lemma satisfies_strings (v : json) :
  satisfies (ARRAY (STRING None)) v = true ->
  exists l, v = JArray l /\ Forall (fun x => exists s, x = JString s) l.
Proof.
  intros H. apply satisfies_array in H as (l & -> & Hl).
  exists l. split; [done|].
  eapply Forall_impl; [exact Hl|]. intros x. apply satisfies_string.
Qed.

(** From [H], that an object satisfies an object schema, the required
    member [k] and that it satisfies its own schema. *)
Ltac member H m k x G S :=
  lazymatch type of H with
  | satisfies (OBJECT ?props ?req) _ = true =>
      let o := eval vm_compute in (SchemaView.property k props) in
      lazymatch o with
      | Some ?sk =>
          destruct (satisfies_property props req m k sk H) as (x & G & S);
          [simpl; tauto|reflexivity|]
      end
  end.

(** X11.  A payload that satisfies the result schema has everything the
    derivation of the feedback reads, in the form the types promise:
    [missingKeywords] and [formattingIssues] are arrays of strings, and
    [improvementPlan] is an array of objects whose [priority] is one of
    the three priorities, whose [category] is one of the three categories,
    and whose [action], [explanation] and [expectedBenefit] are strings. *)
Theorem schema_gives_feedback_fields (v : json) :
  satisfies ANALYSIS_SCHEMA v = true ->
  exists m mk fi ip,
    v = JObject m
    /\ get "missingKeywords" m = Some (JArray mk)
    /\ Forall (fun x => exists s, x = JString s) mk
    /\ get "formattingIssues" m = Some (JArray fi)
    /\ Forall (fun x => exists s, x = JString s) fi
    /\ get "improvementPlan" m = Some (JArray ip)
    /\ Forall (fun e => exists me p c a ex b,
                 e = JObject me
                 /\ get "priority" me
                    = Some (JString (DashboardView.Priority_str p))
                 /\ get "category" me = Some (JString (Category_str c))
                 /\ get "action" me = Some (JString a)
                 /\ get "explanation" me = Some (JString ex)
                 /\ get "expectedBenefit" me = Some (JString b))
              ip.
Proof.
  intros H. destruct v as [| | | | |m]; try done.
  unfold ANALYSIS_SCHEMA in H.
  member H m "missingKeywords" x1 G1 S1.
  member H m "formattingIssues" x2 G2 S2.
  member H m "improvementPlan" x3 G3 S3.
  apply satisfies_strings in S1 as (mk & -> & Hmk).
  apply satisfies_strings in S2 as (fi & -> & Hfi).
  apply satisfies_array in S3 as (ip & -> & Hip).
  exists m, mk, fi, ip. split_and!; try done.
  eapply Forall_impl; [exact Hip|]. intros e He.
  destruct e as [| | | | |me]; try done.
  member He me "priority" y1 F1 T1.
  member He me "category" y2 F2 T2.
  member He me "action" y3 F3 T3.
  member He me "explanation" y4 F4 T4.
  member He me "expectedBenefit" y5 F5 T5.
  apply satisfies_enum in T1 as (s1 & -> & I1).
  apply satisfies_enum in T2 as (s2 & -> & I2).
  apply satisfies_string in T3 as (a & ->).
  apply satisfies_string in T4 as (ex & ->).
  apply satisfies_string in T5 as (b & ->).
  assert (Hp : exists p, s1 = DashboardView.Priority_str p).
  { simpl in I1. destruct I1 as [<-|[<-|[<-|[]]]];
      [by exists High|by exists Medium|by exists Low]. }
  assert (Hc : exists c, s2 = Category_str c).
  { simpl in I2. destruct I2 as [<-|[<-|[<-|[]]]];
      [by exists Content|by exists Keywords|by exists Formatting]. }
  destruct Hp as [p ->]. destruct Hc as [c ->].
  by exists me, p, c, a, ex, b.
Qed.

Lemma schema_gives_feedback_fields_witness :
  exists v m ip,
    Json.parse Samples.sample_text = inr v /\ v = JObject m
    /\ get "improvementPlan" m = Some (JArray ip) /\ length ip = 1.
Proof.
  destruct (schema_gives_feedback_fields
              (match Json.parse Samples.sample_text with
               | inr v => v
               | inl _ => JNull
               end))
    as (m & mk & fi & ip & Hv & _ & _ & _ & _ & Hip & _);
    [vm_compute; reflexivity|].
  eexists _, m, ip. split; [vm_compute; reflexivity|].
  split; [exact Hv|]. split; [exact Hip|].
  vm_compute in Hv. injection Hv as <-. vm_compute in Hip.
  by injection Hip as <-.
Defined.

End SchemaFacts.

(** ** More on the upload surface *)

Section UploadFacts.
Import FileUpload.
Import FileUploadDrag.

(** X12.  Dropping and browsing treat the files alike: the drop handler
    of an enabled zone and the input handler call [onFileSelect] with the
    same file and show the same alert.  Each event accepts at most one
    file, the first of the list, or shows one alert, never both; the files
    after the first are ignored.  A disabled zone accepts nothing and
    shows nothing. *)
Theorem drop_and_browse_agree (disabled : bool) (files : option (list File)) :
  selected (handleDrop false files) = selected (handleInputChange files)
  /\ alerts (handleDrop false files) = alerts (handleInputChange files)
  /\ length (selected (handleDrop disabled files))
     + length (alerts (handleDrop disabled files)) <= 1
  /\ (forall f, f ∈ selected (handleDrop disabled files) ->
        disabled = false /\ exists rest, files = Some (f :: rest))
  /\ (forall f rest more,
        selected (handleDrop disabled (Some (f :: rest)))
        = selected (handleDrop disabled (Some (f :: more))))
  /\ (disabled = true ->
      selected (handleDrop disabled files) = []
      /\ alerts (handleDrop disabled files) = []).
Proof.
  unfold handleDrop, handleInputChange.
  split_and!.
  - by destruct files as [[|f fs]|]; simpl; try destruct (Js.str_eq _ _).
  - by destruct files as [[|f fs]|]; simpl; try destruct (Js.str_eq _ _).
  - destruct disabled, files as [[|f fs]|]; simpl; try lia.
    destruct (Js.str_eq _ _); simpl; lia.
  - intros f. destruct disabled, files as [[|f0 fs]|]; simpl;
      try (intros H; by apply elem_of_nil in H).
    destruct (Js.str_eq _ _); simpl; intros H;
      [|by apply elem_of_nil in H].
    apply list_elem_of_singleton in H as ->. eauto.
  - intros f rest more. by destruct disabled.
  - by intros ->.
Qed.

Lemma dragging_step (disabled before : bool) (ev : DragEvent) :
  isDragging_after before (handle disabled ev)
  = match ev with
    | DragOver => if disabled then before else true
    | DragLeave | DropFiles _ => false
    end.
Proof.
  destruct ev as [| |files]; simpl.
  - by destruct disabled.
  - done.
  - unfold handleDrop. destruct disabled; simpl; [done|].
    destruct files as [[|f fs]|]; simpl; try done.
    by destruct (Js.str_eq _ _).
Qed.

(** X13.  The highlight of the drop zone: after a drop or when the
    dragged file leaves, the zone is not highlighted, whatever was
    dropped; and a disabled zone that is not highlighted stays so through
    any sequence of drag events. *)
Theorem drop_zone_highlight (disabled before : bool) (evs : list DragEvent) :
  (forall files,
      isDragging_after before (handle disabled (DropFiles files)) = false)
  /\ isDragging_after before (handle disabled DragLeave) = false
  /\ (disabled = true ->
      fold_left (fun b ev => isDragging_after b (handle disabled ev)) evs false
      = false).
Proof.
  split_and!.
  - intros files. by rewrite dragging_step.
  - by rewrite dragging_step.
  - intros ->. induction evs as [|ev evs IH]; [done|].
    simpl fold_left. rewrite dragging_step.
    by destruct ev.
Qed.

End UploadFacts.

(** ** Invariants and whole attempts of the application *)

Section SystemFacts.
Import Types.
Import Json.
Import GeminiService.
Import App.
Import AppNotions.
Import AppView.
Import Vocabulary.
Import Samples.

Variable env : gmap string string.
Variable ai : string -> Service.

Lemma run_invariant (P : System -> Prop) (sys : System) :
  P boot ->
  (forall s ev s', P s -> step env ai s ev = Some s' -> P s') ->
  reachable env ai sys -> P sys.
Proof.
  intros H0 Hstep [evs Hrun].
  assert (G : forall evs s0, P s0 -> run env ai s0 evs = Some sys -> P sys).
  { clear evs Hrun. induction evs as [|ev evs IH]; intros s0 Hs0 Hrun;
      simpl in Hrun.
    - by injection Hrun as <-.
    - destruct (step env ai s0 ev) as [s1|] eqn:E; [|done].
      eapply IH; [|done]. by eapply Hstep. }
  by apply (G evs boot).
Qed.

Lemma upload_none (reader_starts : bool) (effects : list FileUpload.Effect)
    (sys : System) :
  FileUpload.selected effects = [] -> upload reader_starts effects sys = sys.
Proof.
  unfold upload. revert sys.
  induction effects as [|e effects IH]; intros sys H; [done|].
  destruct e; simpl in *; try (apply IH; done). done.
Qed.

Lemma upload_cases (reader_starts : bool) (effects : list FileUpload.Effect)
    (sys : System) :
  length (FileUpload.selected effects) <= 1 ->
  upload reader_starts effects sys = sys
  \/ exists file, upload reader_starts effects sys
                  = handleFileSelect reader_starts file sys.
Proof.
  revert sys.
  induction effects as [|e effects IH]; intros sys Hlen; [by left|].
  destruct e; try (apply IH; done).
  right. exists file. simpl in Hlen.
  change (upload reader_starts (FileUpload.onFileSelect file :: effects) sys)
    with (upload reader_starts effects (handleFileSelect reader_starts file sys)).
  apply upload_none.
  destruct (FileUpload.selected effects); [done|simpl in Hlen; lia].
Qed.

Lemma step_upload_cases (sys sys' : System) (ev : Event) :
  step env ai sys ev = Some sys' ->
  match ev with
  | Drop _ reader_starts | InputChange _ reader_starts =>
      status (ui sys) = idle
      /\ (sys' = sys
          \/ exists file, sys' = handleFileSelect reader_starts file sys)
  | _ => True
  end.
Proof.
  destruct ev; try done; simpl;
    destruct (status (ui sys)) eqn:Hs; try done; intros [= <-];
    (split; [done|]); apply upload_cases;
    apply handlers_select_at_most_one.
Qed.

Lemma ui_invariant (P : State -> Prop) (sys : System) :
  P initial ->
  (forall s, status s = idle -> P s -> P (handleFileSelect_enter s)) ->
  (forall s, status s = idle -> P s ->
             P (handleFileSelect_catch (handleFileSelect_enter s))) ->
  (forall s, P s -> P (reader_onerror s)) ->
  (forall o s, P s -> P (call_settled o s)) ->
  reachable env ai sys -> P (ui sys).
Proof.
  intros H0 Henter Hcatch Herr Hcall.
  apply (run_invariant (fun s => P (ui s))); [done|].
  intros s ev s' Hs Hstep.
  pose proof (step_upload_cases s s' ev Hstep) as Hup.
  destruct ev; simpl in Hstep.
  - destruct Hup as [Hidle [->|[file ->]]]; [done|].
    unfold handleFileSelect. destruct reader_starts; simpl; auto.
  - destruct Hup as [Hidle [->|[file ->]]]; [done|].
    unfold handleFileSelect. destruct reader_starts; simpl; auto.
  - destruct (attempts s !! i) as [[]|]; try done. by injection Hstep as <-.
  - destruct (attempts s !! i) as [[]|]; try done. injection Hstep as <-.
    simpl. auto.
  - destruct (attempts s !! i) as [[]|]; try done. injection Hstep as <-.
    simpl. auto.
  - destruct (status (ui s)); try done. by injection Hstep as <-.
  - destruct (status (ui s)); try done. by injection Hstep as <-.
  - destruct (status (ui s)), (result (ui s)); try done;
      by injection Hstep as <-.
Qed.

Lemma or_else_fallback (m : string) : Js.or_else m fallback <> EmptyString.
Proof. by destruct m. Qed.

Lemma reachable_message_matches (sys : System) :
  reachable env ai sys -> message_matches (ui sys).
Proof.
  apply ui_invariant; unfold message_matches.
  - done.
  - intros s Hs. by rewrite Hs.
  - intros s Hs _. simpl. eauto.
  - intros s _. simpl. eauto.
  - intros o s H. destruct o as [err|data]; simpl;
      unfold call_rejected, call_resolved;
      destruct (status s) eqn:Hs; simpl; rewrite ?Hs; try done.
    eexists. split; [done|]. apply or_else_fallback.
Qed.

Lemma step_keeps_from_analysis (s s' : System) (ev : Event) :
  from_analysis env ai s -> step env ai s ev = Some s' ->
  from_analysis env ai s'.
Proof.
  intros [Hall Hres] Hstep.
  pose proof (step_upload_cases s s' ev Hstep) as Hup.
  destruct ev; simpl in Hstep.
  - destruct Hup as [_ [->|[file ->]]]; [done|].
    unfold handleFileSelect. destruct reader_starts; split; simpl; try done.
    apply Forall_app. split; [done|]. by repeat constructor.
  - destruct Hup as [_ [->|[file ->]]]; [done|].
    unfold handleFileSelect. destruct reader_starts; split; simpl; try done.
    apply Forall_app. split; [done|]. by repeat constructor.
  - destruct (attempts s !! i) as [[]|] eqn:Hi; try done.
    injection Hstep as <-. split; simpl; [|done].
    apply Forall_insert; [done|]. by eexists.
  - destruct (attempts s !! i) as [[]|] eqn:Hi; try done.
    injection Hstep as <-. split; simpl; [|done].
    by apply Forall_insert.
  - destruct (attempts s !! i) as [[|outcome|]|] eqn:Hi; try done.
    injection Hstep as <-. split; simpl; [by apply Forall_insert|].
    pose proof (Forall_lookup_1 _ _ _ _ Hall Hi) as [b Hb]. simpl in Hb.
    destruct outcome as [err|data]; simpl;
      unfold call_rejected, call_resolved;
      destruct (status (ui s)); simpl; try done.
    intros data' [= <-]. by exists b.
  - destruct (status (ui s)); try done. injection Hstep as <-.
    split; simpl; done.
  - destruct (status (ui s)); try done. injection Hstep as <-.
    split; simpl; done.
  - destruct (status (ui s)), (result (ui s)); try done;
      injection Hstep as <-; split; simpl; done.
Qed.

Lemma reachable_from_analysis (sys : System) :
  reachable env ai sys -> from_analysis env ai sys.
Proof.
  apply (run_invariant (from_analysis env ai)).
  - split; [constructor|done].
  - intros s ev s'. apply step_keeps_from_analysis.
Qed.


(** X2.  In every state the application can reach, an error message is
    held exactly in the status error, and it is never the empty text: the
    error panel always has something to say, and no message outlives a
    retry, a cancel or a new attempt. *)
Theorem error_message_invariant (sys : System) :
  reachable env ai sys ->
  (status (ui sys) = error ->
   exists m, errorMsg (ui sys) = Some m /\ m <> EmptyString)
  /\ (status (ui sys) <> error -> errorMsg (ui sys) = None).
Proof.
  intros H. pose proof (reachable_message_matches sys H) as Hm.
  unfold message_matches in Hm. split.
  - intros Hs. by rewrite Hs in Hm.
  - intros Hs. by destruct (status (ui sys)).
Qed.

(** X3.  Which block of the main area is taken is decided by the
    status, in every state the application can reach: the landing page for
    idle, the loading screen for analyzing, the error panel with a message
    that is not empty for error.  In the status success the dashboard is
    taken, on the held value, exactly when that value is truthy; the held
    value is what the analysis returned, and when that is falsy (null,
    false, the empty string, zero) none of the four screens is taken.  A
    returned object or array always leads to the dashboard. *)
Theorem main_area_by_status (denotes_zero : string -> bool) (sys : System) :
  reachable env ai sys ->
  match status (ui sys) with
  | idle => main denotes_zero (ui sys) = [Landing]
  | analyzing => main denotes_zero (ui sys) = [Loading]
  | error =>
      exists m, m <> EmptyString
                /\ main denotes_zero (ui sys) = [ErrorPanel (Some m)]
  | success =>
      exists data b,
        result (ui sys) = Some data
        /\ settled (analyzeResumeWithGemini env ai b) = inr data
        /\ main denotes_zero (ui sys)
           = (if truthy denotes_zero data then [DashboardOn data]
              else [Falsy data])
        /\ (main denotes_zero (ui sys) = [DashboardOn data]
            <-> truthy denotes_zero data = true)
        /\ ((exists m, data = JObject m) \/ (exists l, data = JArray l) ->
            main denotes_zero (ui sys) = [DashboardOn data])
        /\ (data = JNull \/ data = JBool false \/ data = JString EmptyString ->
            main denotes_zero (ui sys) = [Falsy data])
  end.
Proof.
  intros H.
  pose proof (reachable_result_matches env ai sys H) as Hr.
  pose proof (reachable_message_matches sys H) as Hm.
  pose proof (reachable_from_analysis sys H) as [_ Hres].
  unfold result_matches, message_matches, main in *.
  destruct (status (ui sys)); try done.
  - destruct (result (ui sys)) as [data|] eqn:E; [|done].
    destruct (Hres data eq_refl) as [b Hb]. exists data, b.
    simpl. split_and!; try done.
    + destruct (truthy denotes_zero data); split; done.
    + intros [[m ->]|[l ->]]; done.
    + intros [->|[->| ->]]; done.
  - destruct Hm as (m & -> & Hne). by exists m.
Qed.

End SystemFacts.

(** ** One attempt from the selection of the file to its end *)

Section AttemptFacts.
Import Types.
Import Json.
Import GeminiService.
Import App.
Import AppNotions.
Import Vocabulary.

Variable env : gmap string string.
Variable ai : string -> Service.

Lemma accept_pdf (sys : System) (ev : Event) (file : FileUpload.File)
    (rest : list FileUpload.File) :
  status (ui sys) = idle -> FileUpload.type file = "application/pdf" ->
  hands_over ev (file :: rest) ->
  step env ai sys ev
  = Some {| ui := {| status := analyzing; result := result (ui sys);
                     errorMsg := None |};
            attempts := attempts sys ++ [Reading];
            sent := sent sys |}.
Proof.
  intros Hs Ht [-> | ->]; simpl; rewrite Hs;
    unfold FileUpload.handleDrop, FileUpload.handleInputChange;
    rewrite Ht; reflexivity.
Qed.

Lemma lookup_last_attempt (l : list Phase) (p : Phase) :
  (l ++ [p]) !! length l = Some p.
Proof. rewrite lookup_app_r by lia. by rewrite Nat.sub_diag. Qed.

Lemma insert_last_attempt (l : list Phase) (p q : Phase) :
  <[length l := q]> (l ++ [p]) = l ++ [q].
Proof.
  rewrite insert_app_r_alt by lia. by rewrite Nat.sub_diag.
Qed.

(** How an attempt ends once the file is read: the outcome of the
    analysis is applied to the state [analyzing]. *)
Lemma attempt_runs (sys : System) (ev : Event) (file : FileUpload.File)
    (rest : list FileUpload.File) (base64 : string) :
  status (ui sys) = idle -> FileUpload.type file = "application/pdf" ->
  hands_over ev (file :: rest) ->
  run env ai sys
    [ev; ReaderLoad (length (attempts sys)) base64;
     CallSettles (length (attempts sys))]
  = Some {| ui := call_settled
                    (settled (analyzeResumeWithGemini env ai base64))
                    {| status := analyzing; result := result (ui sys);
                       errorMsg := None |};
            attempts := attempts sys ++ [Finished];
            sent := sent sys
                    ++ requests (analyzeResumeWithGemini env ai base64) |}.
Proof.
  intros Hs Ht Hev. cbn [run].
  rewrite (accept_pdf sys ev file rest Hs Ht Hev).
  cbn [step attempts ui sent]. rewrite lookup_last_attempt.
  cbn [step attempts ui sent]. rewrite insert_last_attempt.
  rewrite lookup_last_attempt.
  unfold with_attempt, with_ui. cbn [attempts ui sent].
  by rewrite insert_last_attempt.
Qed.

(** X4.  A whole successful attempt.  From the idle page, a PDF handed
    over by drop or by the file input, then read, then answered by the
    service with a non-empty text that parses, ends in the status success:
    the held result is the parsed value, there is no error message, exactly
    one request was sent, carrying the document that was read, and the
    attempt is finished.  Files after the first play no part. *)
Theorem successful_attempt (sys : System) (ev : Event) (file : FileUpload.File)
    (rest : list FileUpload.File) (base64 key t : string)
    (resp : GenerateContentResponse) (v : json) :
  status (ui sys) = idle -> FileUpload.type file = "application/pdf" ->
  hands_over ev (file :: rest) ->
  env !! "VITE_API_KEY" = Some key -> key <> EmptyString ->
  ai key (request base64) = inr resp ->
  text resp = Some t -> t <> EmptyString -> Json.parse t = inr v ->
  run env ai sys
    [ev; ReaderLoad (length (attempts sys)) base64;
     CallSettles (length (attempts sys))]
  = Some {| ui := {| status := success; result := Some v; errorMsg := None |};
            attempts := attempts sys ++ [Finished];
            sent := sent sys ++ [request base64] |}.
Proof.
  intros Hs Ht Hev Hk Hne Hai Htxt Htne Hv.
  rewrite (attempt_runs sys ev file rest base64 Hs Ht Hev).
  rewrite (with_key_text env ai base64 key resp t Hk Hne Hai Htxt Htne).
  simpl. by rewrite Hv.
Qed.

(** X5.  A whole failed attempt.  From the idle page, a PDF handed
    over and read, whose analysis fails (no credential, a failure of the
    service, no text, or a text that does not parse), ends in the status
    error; the message shown is the message of the thrown error, or the
    general one "Failed to analyze resume. Please try again." when the
    thrown value is no error object or its message is empty.  The held
    result is untouched. *)
Theorem failed_attempt (sys : System) (ev : Event) (file : FileUpload.File)
    (rest : list FileUpload.File) (base64 : string) (err : Js.thrown) :
  status (ui sys) = idle -> FileUpload.type file = "application/pdf" ->
  hands_over ev (file :: rest) ->
  settled (analyzeResumeWithGemini env ai base64) = inl err ->
  exists sys',
    run env ai sys
      [ev; ReaderLoad (length (attempts sys)) base64;
       CallSettles (length (attempts sys))] = Some sys'
    /\ status (ui sys') = error
    /\ result (ui sys') = result (ui sys)
    /\ errorMsg (ui sys')
       = Some (match err with
               | Js.ErrorObject _ (String c m) => String c m
               | Js.ErrorObject _ EmptyString | Js.OtherValue _ =>
                   "Failed to analyze resume. Please try again."
               end)
    /\ length (sent sys') <= length (sent sys) + 1.
Proof.
  intros Hs Ht Hev Herr.
  rewrite (attempt_runs sys ev file rest base64 Hs Ht Hev).
  eexists. split; [reflexivity|]. rewrite Herr. simpl.
  split_and!; try done.
  - by destruct err as [n [|c m]|x].
  - rewrite length_app.
    destruct (requests_of_analysis env ai base64) as [[_ ->]|[_ ->]];
      simpl; lia.
Qed.

End AttemptFacts.

(** ** Requests and attempts *)

Section TrafficFacts.
Import Types.
Import Json.
Import GeminiService.
Import App.
Import AppNotions.
Import Samples.

Variable env : gmap string string.
Variable ai : string -> Service.

Lemma started_app_reading (l : list Phase) :
  started (l ++ [Reading]) = started l.
Proof.
  unfold started. rewrite filter_app, length_app.
  rewrite filter_cons_False by done. simpl. lia.
Qed.

Lemma started_le_length (l : list Phase) : started l <= length l.
Proof. apply length_filter. Qed.

Lemma started_insert_reading (l : list Phase) (i : nat) (p : Phase) :
  l !! i = Some Reading -> is_reading p = false ->
  started (<[i := p]> l) = S (started l).
Proof.
  unfold started. revert i; induction l as [|q l IH]; intros i Hi Hp; [done|].
  destruct i as [|i]; simpl in *.
  - injection Hi as ->.
    rewrite filter_cons_True by done.
    by rewrite filter_cons_False by done.
  - rewrite !filter_cons. destruct (decide (is_reading q = false));
      simpl; by rewrite (IH i Hi Hp).
Qed.

Lemma started_insert_ended (l : list Phase) (i : nat) (p q : Phase) :
  l !! i = Some q -> is_reading q = false -> is_reading p = false ->
  started (<[i := p]> l) = started l.
Proof.
  unfold started. revert i; induction l as [|r l IH]; intros i Hi Hq Hp; [done|].
  destruct i as [|i]; simpl in *.
  - injection Hi as ->. by rewrite !filter_cons_True by done.
  - rewrite !filter_cons. destruct (decide (is_reading r = false));
      simpl; by rewrite (IH i Hi Hq Hp).
Qed.

Lemma step_keeps_traffic (s s' : System) (ev : Event) :
  length (sent s) <= started (attempts s)
  /\ Forall (fun q => exists b, q = request b) (sent s) ->
  step env ai s ev = Some s' ->
  length (sent s') <= started (attempts s')
  /\ Forall (fun q => exists b, q = request b) (sent s').
Proof.
  intros [Hlen Hall] Hstep.
  pose proof (step_upload_cases env ai s s' ev Hstep) as Hup.
  destruct ev; simpl in Hstep.
  - destruct Hup as [_ [->|[file ->]]]; [done|].
    unfold handleFileSelect. destruct reader_starts; simpl; [|done].
    by rewrite started_app_reading.
  - destruct Hup as [_ [->|[file ->]]]; [done|].
    unfold handleFileSelect. destruct reader_starts; simpl; [|done].
    by rewrite started_app_reading.
  - destruct (attempts s !! i) as [[]|] eqn:Hi; try done.
    injection Hstep as <-. simpl.
    rewrite (started_insert_reading _ _ _ Hi) by done.
    rewrite length_app, Forall_app.
    destruct (requests_of_analysis env ai base64String) as [[_ ->]|[_ ->]];
      simpl; (split; [lia|]); split; try done.
    constructor; [by eexists|done].
  - destruct (attempts s !! i) as [[]|] eqn:Hi; try done.
    injection Hstep as <-. simpl.
    rewrite (started_insert_reading _ _ _ Hi) by done. split; [lia|done].
  - destruct (attempts s !! i) as [[]|] eqn:Hi; try done.
    injection Hstep as <-. simpl.
    by rewrite (started_insert_ended _ _ _ _ Hi) by done.
  - destruct (status (ui s)); try done. by injection Hstep as <-.
  - destruct (status (ui s)); try done. by injection Hstep as <-.
  - destruct (status (ui s)), (result (ui s)); try done;
      by injection Hstep as <-.
Qed.

(** X6.  The application never sends more requests than there are
    attempts whose file has been read, hence never more than files were
    accepted: a failed or cancelled attempt is not sent again.  Every
    request sent is the fixed request of the analysis for some document. *)
Theorem requests_bounded_by_attempts (sys : System) :
  reachable env ai sys ->
  length (sent sys) <= started (attempts sys)
  /\ started (attempts sys) <= length (attempts sys)
  /\ Forall (fun q => exists b, q = request b) (sent sys).
Proof.
  intros H.
  assert (G : length (sent sys) <= started (attempts sys)
              /\ Forall (fun q => exists b, q = request b) (sent sys)).
  { revert H. apply (run_invariant env ai
      (fun s => length (sent s) <= started (attempts s)
                /\ Forall (fun q => exists b, q = request b) (sent s))).
    - split; [done|constructor].
    - intros s ev s'. apply step_keeps_traffic. }
  destruct G as [G1 G2]. split_and!; [done|apply started_le_length|done].
Qed.

End TrafficFacts.

(** ** The application on sample runs *)

Section SystemWitnesses.
Import Types.
Import Json.
Import GeminiService.
Import App.
Import AppNotions.
Import AppView.
Import Samples.
Import SampleRuns.

Lemma success_run_reaches :
  exists sys, run sample_env (replies (Some sample_text)) boot success_run
              = Some sys /\ status (ui sys) = success.
Proof. eexists. split; vm_compute; reflexivity. Qed.

Lemma failure_run_reaches :
  exists sys, run sample_env (fails down) boot failure_run = Some sys
              /\ status (ui sys) = error.
Proof. eexists. split; vm_compute; reflexivity. Qed.


Lemma error_message_invariant_witness :
  exists sys m,
    run sample_env (fails down) boot failure_run = Some sys
    /\ errorMsg (ui sys) = Some m /\ m <> EmptyString.
Proof.
  destruct failure_run_reaches as (sys & Hrun & Hs).
  destruct (error_message_invariant sample_env (fails down) sys)
    as [H _]; [by exists failure_run|].
  destruct (H Hs) as (m & Hm & Hne). by exists sys, m.
Defined.

(** The service answers with the text [null]: the attempt ends in the
    status success, and the dashboard is not taken. *)
Lemma main_area_by_status_witness :
  exists sys,
    run sample_env (replies (Some "null")) boot failure_run = Some sys
    /\ status (ui sys) = success
    /\ main (fun literal => String.eqb literal "0") (ui sys) = [Falsy JNull].
Proof.
  assert (Hrun : exists sys,
    run sample_env (replies (Some "null")) boot failure_run = Some sys
    /\ status (ui sys) = success /\ result (ui sys) = Some JNull).
  { eexists. split; [vm_compute; reflexivity|]. by vm_compute. }
  destruct Hrun as (sys & Hrun & Hs & Hres).
  pose proof (main_area_by_status sample_env (replies (Some "null"))
                (fun literal => String.eqb literal "0") sys) as H.
  rewrite Hs in H.
  destruct H as (data & b & Hd & _ & _ & _ & _ & Hf); [by exists failure_run|].
  rewrite Hres in Hd. injection Hd as <-.
  exists sys. split_and!; [exact Hrun|exact Hs|]. apply Hf. by left.
Defined.

Lemma requests_bounded_by_attempts_witness :
  exists sys,
    run sample_env (replies (Some sample_text)) boot success_run = Some sys
    /\ length (sent sys) <= length (attempts sys).
Proof.
  destruct success_run_reaches as (sys & Hrun & Hs).
  destruct (requests_bounded_by_attempts sample_env
              (replies (Some sample_text)) sys) as (H1 & H2 & _);
    [by exists success_run|].
  exists sys. split; [done|lia].
Defined.

Lemma sample_text_parses : exists v, Json.parse sample_text = inr v.
Proof. destruct sample_text_satisfies_schema as (v & Hv & _). by exists v. Qed.

Lemma successful_attempt_witness :
  exists v,
    run sample_env (replies (Some sample_text)) boot
      [Drop (Some [b_pdf; notes_txt]) true; ReaderLoad 0 "QkJC"; CallSettles 0]
    = Some {| ui := {| status := success; result := Some v;
                       errorMsg := None |};
              attempts := [Finished];
              sent := [request "QkJC"] |}.
Proof.
  destruct sample_text_parses as [v Hv].
  exists v.
  apply (successful_attempt sample_env (replies (Some sample_text)) boot
           (Drop (Some [b_pdf; notes_txt]) true) b_pdf [notes_txt] "QkJC"
           "test-key" sample_text {| text := Some sample_text |} v);
    [reflexivity|reflexivity|by left|reflexivity|done|reflexivity|reflexivity
    |done|exact Hv].
Defined.

Lemma failed_attempt_witness :
  exists sys',
    run sample_env (fails down) boot failure_run = Some sys'
    /\ errorMsg (ui sys') = Some "503 Service Unavailable".
Proof.
  destruct (failed_attempt sample_env (fails down) boot
              (InputChange (Some [a_pdf]) true) a_pdf [] "QUFB" down)
    as (sys' & Hrun & _ & _ & Hm & _);
    [reflexivity|reflexivity|by right|reflexivity|].
  by exists sys'.
Defined.

End SystemWitnesses.

(** ** Hovering a card *)

Section HoverFacts.
Import Types.
Import Dashboard.
Import DashboardView.

Lemma planSection_region (p : PlanItem) :
  planSection p = "skills" \/ planSection p = "summary"
  \/ planSection p = "experience" \/ planSection p = "document".
Proof.
  unfold planSection.
  destruct (Js.str_eq (Category_str (category p)) "Keywords"); [tauto|].
  destruct (_ || _); [tauto|].
  destruct (Js.str_eq (Category_str (category p)) "Content"); tauto.
Qed.

(** X14.  Every card of the feed, under every tab, points at a region
    that the preview has: hovering it highlights exactly one region (the
    skills for the missing keywords, the whole document for a formatting
    issue, one of the four for a plan entry), and leaving it highlights
    none. *)
Theorem every_card_highlights_one_region
    (data : AnalysisResult) (tab : Tab) (item : FeedbackItem) :
  item ∈ getFilteredFeedback data tab ->
  highlighted (onMouseEnter item) = [section item]
  /\ section item ∈ previewRegions
  /\ highlighted onMouseLeave = []
  /\ (type item = missing_keywords -> section item = "skills")
  /\ (type item = formatting -> section item = "document").
Proof.
  intros Hin.
  assert (Hd : item ∈ derivedItems data).
  { destruct tab.
    - exact Hin.
    - change TabContent with (tab_of Content) in Hin.
      rewrite filtered_by_category in Hin.
      by apply list_elem_of_filter in Hin as [_ ?].
    - change TabKeywords with (tab_of Keywords) in Hin.
      rewrite filtered_by_category in Hin.
      by apply list_elem_of_filter in Hin as [_ ?].
    - change TabFormatting with (tab_of Formatting) in Hin.
      rewrite filtered_by_category in Hin.
      by apply list_elem_of_filter in Hin as [_ ?]. }
  destruct (derived_item_cases data item Hd)
    as [[Hne ->]|[(issue & Hi & ->)|(p & Hp & ->)]].
  - split_and!; try done. set_solver.
  - split_and!; try done. set_solver.
  - unfold onMouseEnter. simpl section.
    destruct (planSection_region p) as [->|[->|[->| ->]]];
      split_and!; try done; set_solver.
Qed.

Lemma every_card_highlights_one_region_witness :
  highlighted (onMouseEnter (missingKeywordsItem Samples.sample)) = ["skills"].
Proof.
  apply (every_card_highlights_one_region Samples.sample TabKeywords
           (missingKeywordsItem Samples.sample)).
  apply list_elem_of_lookup. by exists 0.
Defined.

End HoverFacts.

(** ** What the guard on the status does not do *)

Section GuardFacts.
Import Types.
Import Json.
Import GeminiService.
Import App.
Import AppNotions.
Import Samples.

Variable env : gmap string string.
Variable ai : string -> Service.

(** X7.  Cancelling stops nothing that is under way: when the reader
    of the cancelled attempt ends, the document is still sent to the
    service (given a credential).  Only the page has moved on: it is idle,
    with no result and no message. *)
Theorem cancel_does_not_stop_the_request
    (sys : System) (i : nat) (base64 : string) :
  attempts sys !! i = Some Reading -> status (ui sys) = analyzing ->
  falsy (env !! "VITE_API_KEY") = false ->
  exists sys',
    run env ai sys [ClickCancel; ReaderLoad i base64] = Some sys'
    /\ ui sys' = initial
    /\ sent sys' = sent sys ++ [request base64]
    /\ exists outcome, attempts sys' !! i = Some (Calling outcome).
Proof.
  intros Hi Hs Hk. simpl. rewrite Hs. simpl. rewrite Hi.
  eexists. split; [reflexivity|]. simpl.
  destruct (requests_of_analysis env ai base64) as [[Hf _]|[_ ->]];
    [congruence|].
  split_and!; try done.
  eexists. apply list_lookup_insert_eq. by eapply lookup_lt_Some.
Qed.

(** X8.  The guard tells no attempt from another.  A first document is
    handed over and read, the user cancels and hands over a second one;
    when the answer to the first request arrives, the status is analyzing
    again and the answer is taken: the page shows success with the
    analysis of the first document while the second has not even been
    read, and nothing was sent for it. *)
Theorem answer_to_cancelled_attempt_is_taken
    (sys : System) (ev1 ev2 : Event) (file1 file2 : FileUpload.File)
    (rest1 rest2 : list FileUpload.File) (base64 key t : string)
    (resp : GenerateContentResponse) (v : json) :
  status (ui sys) = idle ->
  FileUpload.type file1 = "application/pdf" -> hands_over ev1 (file1 :: rest1) ->
  FileUpload.type file2 = "application/pdf" -> hands_over ev2 (file2 :: rest2) ->
  env !! "VITE_API_KEY" = Some key -> key <> EmptyString ->
  ai key (request base64) = inr resp ->
  text resp = Some t -> t <> EmptyString -> Json.parse t = inr v ->
  run env ai sys
    [ev1; ReaderLoad (length (attempts sys)) base64; ClickCancel; ev2;
     CallSettles (length (attempts sys))]
  = Some {| ui := {| status := success; result := Some v; errorMsg := None |};
            attempts := attempts sys ++ [Finished; Reading];
            sent := sent sys ++ [request base64] |}.
Proof.
  intros Hs Ht1 Hev1 Ht2 Hev2 Hk Hne Hai Htxt Htne Hv. cbn [run].
  rewrite (accept_pdf env ai sys ev1 file1 rest1 Hs Ht1 Hev1).
  cbn [step attempts ui sent]. rewrite lookup_last_attempt.
  rewrite insert_last_attempt.
  rewrite (with_key_text env ai base64 key resp t Hk Hne Hai Htxt Htne).
  cbn [settled requests step ui status].
  unfold with_ui, cancelAnalysis, setErrorMsg, setResult, setStatus.
  cbn [ui attempts sent status result errorMsg].
  rewrite (accept_pdf env ai _ ev2 file2 rest2);
    [|reflexivity|exact Ht2|exact Hev2].
  cbn [step attempts ui sent result].
  rewrite lookup_app_l by (rewrite length_app; simpl; lia).
  rewrite lookup_last_attempt. rewrite Hv.
  unfold with_attempt, with_ui, call_settled, call_resolved,
    setErrorMsg, setResult, setStatus.
  cbn [ui attempts sent status result errorMsg].
  rewrite insert_app_l by (rewrite length_app; simpl; lia).
  rewrite insert_last_attempt. by rewrite <- app_assoc.
Qed.

End GuardFacts.

Section GuardWitnesses.
Import Types.
Import Json.
Import GeminiService.
Import App.
Import AppNotions.
Import Samples.

Lemma cancel_does_not_stop_the_request_witness :
  exists sys',
    run sample_env (replies (Some sample_text)) boot
      [InputChange (Some [a_pdf]) true; ClickCancel; ReaderLoad 0 "QUFB"]
    = Some sys'
    /\ ui sys' = initial /\ sent sys' = [request "QUFB"].
Proof.
  destruct (cancel_does_not_stop_the_request sample_env
              (replies (Some sample_text))
              {| ui := setStatus analyzing initial; attempts := [Reading];
                 sent := [] |} 0 "QUFB")
    as (sys' & Hrun & Hui & Hsent & _); [reflexivity|reflexivity|reflexivity|].
  exists sys'. split_and!; [exact Hrun|exact Hui|exact Hsent].
Defined.

Lemma answer_to_cancelled_attempt_is_taken_witness :
  exists v,
    run sample_env (replies (Some sample_text)) boot
      [InputChange (Some [a_pdf]) true; ReaderLoad 0 "QUFB"; ClickCancel;
       Drop (Some [b_pdf]) true; CallSettles 0]
    = Some {| ui := {| status := success; result := Some v;
                       errorMsg := None |};
              attempts := [Finished; Reading];
              sent := [request "QUFB"] |}.
Proof.
  destruct sample_text_parses as [v Hv]. exists v.
  apply (answer_to_cancelled_attempt_is_taken sample_env
           (replies (Some sample_text)) boot
           (InputChange (Some [a_pdf]) true) (Drop (Some [b_pdf]) true)
           a_pdf b_pdf [] [] "QUFB" "test-key" sample_text
           {| text := Some sample_text |} v);
    [reflexivity|reflexivity|by right|reflexivity|by left|reflexivity|done
    |reflexivity|reflexivity|done|exact Hv].
Defined.

End GuardWitnesses.
